(** * pylivetrader: the [Algorithm] orchestrator of [pylivetrader/algorithm.py]

    A shallow embedding of the order-sizing, caching, scheduling and
    construction code of class [Algorithm], and the properties the
    specification states about it.

    Conventions of the embedding.
    - Python numbers that may be fractional (amounts, prices, values) are
      exact rationals [Q]; share counts produced by [int(...)] are [Z].
    - A method of [Algorithm] is a computation in the monad [M]: it reads
      and writes the instance and the outside world (backend calls, log
      lines) and either returns a value or raises a Python exception.
    - A name that a function body reads from the module's global scope is
      resolved through [Globals]; [module_globals] records what
      [algorithm.py] itself binds. *)

From Stdlib Require Import ZArith QArith Qabs Qround Lqa Lia Bool List.
From stdpp Require Import base option gmap strings.
Import ListNotations.

Local Open Scope Z_scope.

(** ** Numbers *)

Module Num.

(** Python's built-in [round(a)] with one argument: the nearest integer,
    a tie going to the even neighbour. *)
Definition py_round (a : Q) : Z :=
  let f := Qfloor a in
  match Qcompare (a - inject_Z f) (1 # 2) with
  | Lt => f
  | Gt => f + 1
  | Eq => if Z.even f then f else f + 1
  end.

(** Python's [int(x)] on a number: the fractional part is dropped, so the
    result is the integer next to [x] on the side of zero. *)
Definition py_int (x : Q) : Z := Z.quot (Qnum x) (Zpos (Qden x)).

(** The default tolerance of both helpers of [misc/math_utils]. *)
Definition default_epsilon : Q := 1 # 10000.

(** Modelled from the spec: [pylivetrader.misc.math_utils.round_if_near_integer]
    is imported by [algorithm.py] and its body is not part of the sources at
    hand.  It returns the value rounded to the nearest whole number when the
    value lies within [epsilon] of that whole number, and the value unchanged
    otherwise.  The bound is inclusive: the docstring of [round_order] sends
    3.9999, at distance exactly 0.0001 from 4, to 4. *)
Definition round_if_near_integer (a epsilon : Q) : Q :=
  if Qle_bool (Qabs (a - inject_Z (py_round a))) epsilon
  then inject_Z (py_round a)
  else a.

(** Modelled from the spec: [pylivetrader.misc.math_utils.tolerant_equals],
    likewise imported only: whether [|a - b| <= atol + rtol * |b|]. *)
Definition tolerant_equals_with (a b atol rtol : Q) : bool :=
  Qle_bool (Qabs (a - b)) (atol + rtol * Qabs b).

Definition tolerant_equals (a b : Q) : bool :=
  tolerant_equals_with a b default_epsilon 0.

(** [Algorithm.round_order], a static method:
    [return int(round_if_near_integer(amount))]. *)
Definition round_order (amount : Q) : Z :=
  py_int (round_if_near_integer amount default_epsilon).

(** What "truncated toward zero" means for an integer [t] and a number [a]:
    [t] is [a] without its fractional part. *)
Definition truncation_of (a : Q) (t : Z) : Prop :=
  (0 <= a -> inject_Z t <= a /\ a < inject_Z t + 1)%Q /\
  (a <= 0 -> a <= inject_Z t /\ inject_Z t - 1 < a)%Q.

(** [a] lies within the tolerance of the whole number [n]. *)
Definition near (a : Q) (n : Z) : Prop :=
  (Qabs (a - inject_Z n) <= default_epsilon)%Q.

End Num.

(** ** Data model *)

Module Model.

(** Instants are seconds since the epoch, in UTC. *)
Definition Timestamp := Z.

(** [pylivetrader.assets.Asset], as the orchestrator reads it. *)
Record Asset := {
  sid : Z;
  symbol : string;
  end_date : Timestamp;
  auto_close_date : option Timestamp
}.

(** What strategy code can hand over where an asset is expected:
    [isinstance(asset, Asset)] tells the two apart. *)
Inductive PyObject :=
| AssetObj (a : Asset)
| OtherObj (repr : string).

(** [pylivetrader.finance.execution]: the four execution styles. *)
Inductive ExecutionStyle :=
| MarketOrder
| LimitOrder (limit_price : Q)
| StopOrder (stop_price : Q)
| StopLimitOrder (limit_price stop_price : Q).

(** The order record a backend hands back on placement. *)
Record Order := {
  Order_id : string;
  Order_asset : Asset;
  Order_amount : Z
}.

Record Position := { amount : Z }.

(** Positions are keyed by asset; assets hash and compare by [sid]. *)
Record Portfolio := {
  positions : gmap Z Position;
  portfolio_value : Q
}.

Record Account := { buying_power : Q }.

(** A snapshot object returned by the backend.  [fetch_no] numbers the
    backend accesses and stands for the identity of the returned object:
    two snapshots are the same object exactly when they come from the same
    access. *)
Record Fetched (A : Type) := { fetch_no : nat; value : A }.
Arguments fetch_no {A} _.
Arguments value {A} _.

(** A trading calendar, by the name [get_calendar] was asked for. *)
Definition TradingCalendar := string.
Definition get_calendar (name : string) : TradingCalendar := name.

(** The [calendar] argument of [schedule_function]: one of the two
    sentinels of [misc.events.calendars], or any other object. *)
Inductive Sentinel :=
| US_EQUITIES
| US_FUTURES
| OtherValue (repr : string).

(** Rules of [misc.events].  [every_day] and [every_minute] are what
    [date_rules.every_day()] and [time_rules.every_minute()] build;
    [OnSessions] stands for any other date rule, by the sessions it selects;
    [Composite] is what [make_eventrule] returns. *)
Inductive EventRule :=
| Always
| every_day
| every_minute
| AfterOpen (minutes : Z)
| BeforeClose (minutes : Z)
| OnSessions (eligible : Z -> bool)
| Composite (date_rule time_rule : EventRule)
            (cal : TradingCalendar) (half_days : bool).

Definition make_eventrule (date_rule time_rule : EventRule)
    (cal : TradingCalendar) (half_days : bool) : EventRule :=
  Composite date_rule time_rule cal half_days.

(** [events.Event(rule, callback)]; a callback is known by its name. *)
Record Event := { rule : EventRule; callback : string }.

(** The current instant as the executor sets it. *)
Record Datetime := { instant : Timestamp; tzinfo_is_utc : bool }.

(** [pandas normalize_date]: midnight of the same day. *)
Definition normalize_date (dt : Datetime) : Timestamp :=
  instant dt - instant dt mod 86400.

(** [self.executor], once [run] has built it: the orchestrator only asks
    its current bar data whether an asset can be traded now. *)
Record Executor := { current_data_can_trade : Asset -> bool }.

(** The brokerage behind [self._backend].  [portfolio] and [account] are
    properties fetched afresh at each access: the [n]-th access answers
    with the state the brokerage is in at that time. *)
Record Backend := {
  Backend_order : Asset -> Z -> ExecutionStyle -> option Order;
  Backend_portfolio : nat -> Portfolio;
  Backend_account : nat -> Account
}.

(** The instance attributes of [Algorithm].  An attribute that no
    assignment has created yet is [None]. *)
Record Algorithm := {
  data_frequency : string;
  trading_calendar : TradingCalendar;
  event_manager : list Event;
  _account_needs_update : bool;
  _portfolio_needs_update : bool;
  _portfolio : option (Fetched Portfolio);
  _account : option (Fetched Account);
  datetime : option Datetime;
  logger : option bool;
  executor : option Executor
}.

(** What the instance does to its surroundings. *)
Record World := {
  portfolio_fetches : nat;
  account_fetches : nat;
  orders_sent : list (Asset * Z * ExecutionStyle);
  log_output : list string;
  warnings_issued : list string
}.

Record State := { self : Algorithm; world : World }.

(** Python exceptions the modelled code can raise. *)
Inductive exn :=
| NameError (name : string)
| AttributeError (attribute : string)
| AssertionError (message : string)
| RuntimeError (message : string)
| KeyError (key : string)
| ImportError (module_name : string)
| CannotOrderDelistedAsset (msg : string)
| UnsupportedOrderParameters (msg : string)
| ScheduleFunctionInvalidCalendar
    (given_calendar : Sentinel) (allowed_calendars : string).

(** An [assert] that gives no message raises [AssertionError] without
    one. *)
Definition no_message : string := EmptyString.

(** Names the bodies of [algorithm.py] read from the module's global scope
    without the module binding them.  [None] or [false] is an unbound
    name: reading it raises [NameError]. *)
Record Globals := {
  g_log : bool;
  g_last_price : option Q;
  g_options : option (list (string * string));
  g_ScheduleFunctionInvalidCalendar : bool
}.

(** The module as it is written.  Its imports (lines 1 to 31) bring in
    [APINotSupported], [CannotOrderDelistedAsset] and
    [UnsupportedOrderParameters] from [pylivetrader.errors] and nothing
    called [log], [last_price], [options] or
    [ScheduleFunctionInvalidCalendar]; no statement of the module assigns
    them either. *)
Definition module_globals : Globals := {|
  g_log := false;
  g_last_price := None;
  g_options := None;
  g_ScheduleFunctionInvalidCalendar := false
|}.

End Model.

(** ** Computations: state and exceptions *)

Module Py.
Import Model.

Inductive outcome (A : Type) :=
| Return (a : A)
| Raise (e : exn).
Arguments Return {A} a.
Arguments Raise {A} e.

(** A method body: from the state before to an outcome and the state
    after.  A raised exception keeps the effects that preceded it. *)
Definition M (A : Type) := State -> outcome A * State.

Definition ret {A} (a : A) : M A := fun st => (Return a, st).

Definition raise {A} (e : exn) : M A := fun st => (Raise e, st).

Definition bind {A B} (c : M A) (k : A -> M B) : M B :=
  fun st =>
    match c st with
    | (Return a, st') => k a st'
    | (Raise e, st') => (Raise e, st')
    end.

Definition get : M State := fun st => (Return st, st).

Definition modify_self (f : Algorithm -> Algorithm) : M unit :=
  fun st => (Return tt, {| self := f (self st); world := world st |}).

Definition modify_world (f : World -> World) : M unit :=
  fun st => (Return tt, {| self := self st; world := f (world st) |}).

Declare Scope py_scope.
Delimit Scope py_scope with py.
Notation "'let*' x ':=' c 'in' k" := (bind c (fun x => k))
  (at level 10, x name, c at level 100, k at level 200) : py_scope.
Notation "c ';;' k" := (bind c (fun _ => k))
  (at level 100, k at level 200, right associativity) : py_scope.

(** Attribute assignments on [self]. *)
Definition set_portfolio_needs_update (b : bool) (a : Algorithm) :=
  {| data_frequency := data_frequency a;
     trading_calendar := trading_calendar a;
     event_manager := event_manager a;
     _account_needs_update := _account_needs_update a;
     _portfolio_needs_update := b;
     _portfolio := _portfolio a;
     _account := _account a;
     datetime := datetime a;
     logger := logger a;
     executor := executor a |}.

Definition set_account_needs_update (b : bool) (a : Algorithm) :=
  {| data_frequency := data_frequency a;
     trading_calendar := trading_calendar a;
     event_manager := event_manager a;
     _account_needs_update := b;
     _portfolio_needs_update := _portfolio_needs_update a;
     _portfolio := _portfolio a;
     _account := _account a;
     datetime := datetime a;
     logger := logger a;
     executor := executor a |}.

Definition set_portfolio (p : Fetched Portfolio) (a : Algorithm) :=
  {| data_frequency := data_frequency a;
     trading_calendar := trading_calendar a;
     event_manager := event_manager a;
     _account_needs_update := _account_needs_update a;
     _portfolio_needs_update := _portfolio_needs_update a;
     _portfolio := Some p;
     _account := _account a;
     datetime := datetime a;
     logger := logger a;
     executor := executor a |}.

Definition set_account (p : Fetched Account) (a : Algorithm) :=
  {| data_frequency := data_frequency a;
     trading_calendar := trading_calendar a;
     event_manager := event_manager a;
     _account_needs_update := _account_needs_update a;
     _portfolio_needs_update := _portfolio_needs_update a;
     _portfolio := _portfolio a;
     _account := Some p;
     datetime := datetime a;
     logger := logger a;
     executor := executor a |}.

Definition set_datetime (dt : Datetime) (a : Algorithm) :=
  {| data_frequency := data_frequency a;
     trading_calendar := trading_calendar a;
     event_manager := event_manager a;
     _account_needs_update := _account_needs_update a;
     _portfolio_needs_update := _portfolio_needs_update a;
     _portfolio := _portfolio a;
     _account := _account a;
     datetime := Some dt;
     logger := logger a;
     executor := executor a |}.

Definition set_event_manager (es : list Event) (a : Algorithm) :=
  {| data_frequency := data_frequency a;
     trading_calendar := trading_calendar a;
     event_manager := es;
     _account_needs_update := _account_needs_update a;
     _portfolio_needs_update := _portfolio_needs_update a;
     _portfolio := _portfolio a;
     _account := _account a;
     datetime := datetime a;
     logger := logger a;
     executor := executor a |}.

Definition set_logger_attr (l : bool) (a : Algorithm) :=
  {| data_frequency := data_frequency a;
     trading_calendar := trading_calendar a;
     event_manager := event_manager a;
     _account_needs_update := _account_needs_update a;
     _portfolio_needs_update := _portfolio_needs_update a;
     _portfolio := _portfolio a;
     _account := _account a;
     datetime := datetime a;
     logger := Some l;
     executor := executor a |}.

(** Effects on the surroundings. *)
Definition count_portfolio_fetch (w : World) :=
  {| portfolio_fetches := S (portfolio_fetches w);
     account_fetches := account_fetches w;
     orders_sent := orders_sent w;
     log_output := log_output w;
     warnings_issued := warnings_issued w |}.

Definition count_account_fetch (w : World) :=
  {| portfolio_fetches := portfolio_fetches w;
     account_fetches := S (account_fetches w);
     orders_sent := orders_sent w;
     log_output := log_output w;
     warnings_issued := warnings_issued w |}.

Definition record_order (o : Asset * Z * ExecutionStyle) (w : World) :=
  {| portfolio_fetches := portfolio_fetches w;
     account_fetches := account_fetches w;
     orders_sent := orders_sent w ++ [o];
     log_output := log_output w;
     warnings_issued := warnings_issued w |}.

Definition record_log (line : string) (w : World) :=
  {| portfolio_fetches := portfolio_fetches w;
     account_fetches := account_fetches w;
     orders_sent := orders_sent w;
     log_output := log_output w ++ [line];
     warnings_issued := warnings_issued w |}.

Definition record_warning (line : string) (w : World) :=
  {| portfolio_fetches := portfolio_fetches w;
     account_fetches := account_fetches w;
     orders_sent := orders_sent w;
     log_output := log_output w;
     warnings_issued := warnings_issued w ++ [line] |}.

(** Past the [isinstance] test of [_can_order_asset] the object is an
    [Asset]; its attributes are read through this. *)
Definition with_asset {A} (o : PyObject) (k : Asset -> M A) : M A :=
  match o with
  | AssetObj a => k a
  | OtherObj _ => raise (AttributeError "symbol")
  end.

End Py.

(** ** The methods of [Algorithm] *)

Module Algo.
Import Num Model Py.
Local Open Scope py_scope.
Local Open Scope string_scope.

Section Methods.

(** [G]: what the module's global scope binds; [B]: the brokerage. *)
Context (G : Globals) (B : Backend).

(** *** Clock *)

(** [on_dt_changed(self, dt)]. *)
Definition on_dt_changed (dt : Datetime) : M unit :=
  modify_self (set_portfolio_needs_update true) ;;
  modify_self (set_account_needs_update true) ;;
  modify_self (set_datetime dt).

(** [get_datetime(self, tz=None)], called without a time zone. *)
Definition get_datetime : M Datetime :=
  let* st := get in
  match datetime (self st) with
  | None => raise (AttributeError "datetime")
  | Some dt =>
      if tzinfo_is_utc dt then ret dt
      else raise (AssertionError "Algorithm should have a utc datetime")
  end.

(** [set_logger(self, logger)]; a logger object is truthy, [None] is
    not. *)
Definition set_logger (truthy : bool) : M unit :=
  modify_self (set_logger_attr truthy).

(** *** Cached snapshots *)

(** The [portfolio] property. *)
Definition portfolio : M (Fetched Portfolio) :=
  let* st := get in
  (if _portfolio_needs_update (self st) then
     let n := portfolio_fetches (world st) in
     modify_world count_portfolio_fetch ;;
     modify_self (set_portfolio
                    {| fetch_no := n; value := Backend_portfolio B n |}) ;;
     modify_self (set_portfolio_needs_update false)
   else ret tt) ;;
  let* st := get in
  match _portfolio (self st) with
  | Some p => ret p
  | None => raise (AttributeError "_portfolio")
  end.

(** The [account] property. *)
Definition account : M (Fetched Account) :=
  let* st := get in
  (if _account_needs_update (self st) then
     let n := account_fetches (world st) in
     modify_world count_account_fetch ;;
     modify_self (set_account
                    {| fetch_no := n; value := Backend_account B n |}) ;;
     modify_self (set_account_needs_update false)
   else ret tt) ;;
  let* st := get in
  match _account (self st) with
  | Some p => ret p
  | None => raise (AttributeError "_account")
  end.

(** *** Orders *)

(** [log.warn(...)] at module level: [log] is read from the globals. *)
Definition log_warn (line : string) : M unit :=
  if g_log G then modify_world (record_log line)
  else raise (NameError "log").

(** [_can_order_asset(self, asset)]. *)
Definition _can_order_asset (asset : PyObject) : M bool :=
  match asset with
  | OtherObj _ =>
      raise (UnsupportedOrderParameters
        ("Passing non-Asset argument to 'order()' is not supported." ++
         " Use 'sid()' or 'symbol()' methods to look up an Asset."))
  | AssetObj a =>
      match auto_close_date a with
      | Some acd =>
          let* dt := get_datetime in
          let day := normalize_date dt in
          if Z.ltb (Z.min (end_date a) acd) day then
            log_warn ("Cannot place order for " ++ symbol a ++
                      ", as it is not tradable.") ;;
            ret false
          else ret true
      | None => ret true
      end
  end.

(** [__convert_order_params_for_blotter(limit_price, stop_price, style)],
    a static method.  [if x:] on an optional number holds when the number
    is there and is not zero; a style object always counts as true. *)
Definition truthy_price (p : option Q) : bool :=
  match p with
  | Some x => negb (Qeq_bool x 0)
  | None => false
  end.

Definition price_of (p : option Q) : Q :=
  match p with Some x => x | None => 0%Q end.

Definition __convert_order_params_for_blotter
    (limit_price stop_price : option Q) (style : option ExecutionStyle)
    : M ExecutionStyle :=
  match style with
  | Some s =>
      match limit_price, stop_price with
      | None, None => ret s
      | _, _ => raise (AssertionError no_message)
      end
  | None =>
      if truthy_price limit_price && truthy_price stop_price then
        ret (StopLimitOrder (price_of limit_price) (price_of stop_price))
      else if truthy_price limit_price then
        ret (LimitOrder (price_of limit_price))
      else if truthy_price stop_price then
        ret (StopOrder (price_of stop_price))
      else ret MarketOrder
  end.

(** [_calculate_order(self, asset, amount, limit_price, stop_price,
    style)]. *)
Definition _calculate_order (asset : Asset) (amount : Q)
    (limit_price stop_price : option Q) (style : option ExecutionStyle)
    : M (Z * ExecutionStyle) :=
  let amount := round_order amount in
  let* style :=
    __convert_order_params_for_blotter limit_price stop_price style in
  ret (amount, style).

(** [self._backend.order(asset, amount, style)]. *)
Definition backend_order (asset : Asset) (amount : Z)
    (style : ExecutionStyle) : M (option Order) :=
  modify_world (record_order (asset, amount, style)) ;;
  ret (Backend_order B asset amount style).

(** [order(self, asset, amount, limit_price=None, stop_price=None,
    style=None)]; the result is the order's id, or [None]. *)
Definition order (asset : PyObject) (amount : Q)
    (limit_price stop_price : option Q) (style : option ExecutionStyle)
    : M (option string) :=
  let* can := _can_order_asset asset in
  if negb can then ret None
  else
    with_asset asset (fun a =>
      let* r := _calculate_order a amount limit_price stop_price style in
      let* o := backend_order a (fst r) (snd r) in
      match o with
      | Some o => ret (Some (Order_id o))
      | None => ret None
      end).

(** [_calculate_order_value_amount(self, asset, value)]. *)
Definition _calculate_order_value_amount (asset : Asset) (value : Q)
    : M Q :=
  let* st := get in
  match executor (self st) with
  | None => raise (AttributeError "executor")
  | Some ex =>
      if negb (current_data_can_trade ex asset) then
        raise (CannotOrderDelistedAsset
                 ("Cannot order " ++ symbol asset ++
                  ", as it not tradable"))
      else
        match g_last_price G with
        | None => raise (NameError "last_price")
        | Some last_price =>
            if tolerant_equals last_price 0 then
              let zero_message :=
                "Price of 0 for " ++ symbol asset ++
                "; can't infer value" in
              match logger (self st) with
              | None => raise (AttributeError "logger")
              | Some l =>
                  (if l then modify_world (record_log zero_message)
                   else ret tt) ;;
                  ret 0%Q
              end
            else ret (value / last_price)%Q
        end
  end.

(** [_calculate_order_percent_amount(self, asset, percent)]. *)
Definition _calculate_order_percent_amount (asset : Asset) (percent : Q)
    : M Q :=
  let* p := portfolio in
  let value := (portfolio_value (value p) * percent)%Q in
  _calculate_order_value_amount asset value.

(** [_calculate_order_target_amount(self, asset, target)]. *)
Definition _calculate_order_target_amount (asset : Asset) (target : Q)
    : M Q :=
  let* p := portfolio in
  match positions (value p) !! sid asset with
  | Some _ =>
      let* p := portfolio in
      match positions (value p) !! sid asset with
      | Some pos =>
          let current_position := amount pos in
          ret (target - inject_Z current_position)%Q
      | None => raise (KeyError (symbol asset))
      end
  | None => ret target
  end.

(** [_calculate_order_target_percent_amount(self, asset, target)]. *)
Definition _calculate_order_target_percent_amount (asset : Asset)
    (target : Q) : M Q :=
  let* target_amount := _calculate_order_percent_amount asset target in
  _calculate_order_target_amount asset target_amount.

(** [order_value(self, asset, value, limit_price=None, stop_price=None,
    style=None)]. *)
Definition order_value (asset : PyObject) (value : Q)
    (limit_price stop_price : option Q) (style : option ExecutionStyle)
    : M (option string) :=
  let* can := _can_order_asset asset in
  if negb can then ret None
  else
    let* amount :=
      with_asset asset (fun a => _calculate_order_value_amount a value) in
    order asset amount limit_price stop_price style.

(** [order_percent(self, asset, percent, limit_price=None, stop_price=None,
    style=None)]. *)
Definition order_percent (asset : PyObject) (percent : Q)
    (limit_price stop_price : option Q) (style : option ExecutionStyle)
    : M (option string) :=
  let* can := _can_order_asset asset in
  if negb can then ret None
  else
    let* amount :=
      with_asset asset
        (fun a => _calculate_order_percent_amount a percent) in
    order asset amount limit_price stop_price style.

(** [order_target(self, asset, target, limit_price=None, stop_price=None,
    style=None)]. *)
Definition order_target (asset : PyObject) (target : Q)
    (limit_price stop_price : option Q) (style : option ExecutionStyle)
    : M (option string) :=
  let* can := _can_order_asset asset in
  if negb can then ret None
  else
    let* amount :=
      with_asset asset
        (fun a => _calculate_order_target_amount a target) in
    order asset amount limit_price stop_price style.

(** [order_target_value(self, asset, target, limit_price=None, stop_price=None,
    style=None)]. *)
Definition order_target_value (asset : PyObject) (target : Q)
    (limit_price stop_price : option Q) (style : option ExecutionStyle)
    : M (option string) :=
  let* can := _can_order_asset asset in
  if negb can then ret None
  else
    let* target_amount :=
      with_asset asset
        (fun a => _calculate_order_value_amount a target) in
    let* amount :=
      with_asset asset
        (fun a => _calculate_order_target_amount a target_amount) in
    order asset amount limit_price stop_price style.

(** [order_target_percent(self, asset, target, limit_price=None, stop_price=None,
    style=None)]. *)
Definition order_target_percent (asset : PyObject) (target : Q)
    (limit_price stop_price : option Q) (style : option ExecutionStyle)
    : M (option string) :=
  let* can := _can_order_asset asset in
  if negb can then ret None
  else
    let* amount :=
      with_asset asset
        (fun a => _calculate_order_target_percent_amount a target) in
    order asset amount limit_price stop_price style.

(** *** Scheduling *)

(** [EventManager.add_event(event)] with [prepend] left at its default:
    the event goes to the end of the sequence. *)
Definition add_event (r : EventRule) (cb : string) : M unit :=
  let* st := get in
  modify_self
    (set_event_manager
       (event_manager (self st) ++ [{| rule := r; callback := cb |}])).

(** [isinstance(date_rule, (AfterOpen, BeforeClose))]. *)
Definition is_time_rule_instance (r : option EventRule) : bool :=
  match r with
  | Some (AfterOpen _) | Some (BeforeClose _) => true
  | _ => false
  end.

(** Truth value of an optional rule object: a rule object counts as
    true, [None] does not. *)
Definition given (r : option EventRule) : bool :=
  match r with Some _ => true | None => false end.

(** [x or default] on an optional rule object. *)
Definition or_else (r : option EventRule) (d : EventRule) : EventRule :=
  match r with Some x => x | None => d end.

(** [schedule_function(self, func, date_rule=None, time_rule=None,
    half_days=True, calendar=None)]. *)
Definition schedule_function (func : string)
    (date_rule time_rule : option EventRule) (half_days : bool)
    (calendar : option Sentinel) : M unit :=
  let* st := get in
  (if is_time_rule_instance date_rule && negb (given time_rule)
   then modify_world
          (record_warning
             ("Got a time rule for the second positional argument " ++
              "date_rule. You should use keyword argument " ++
              "time_rule= when calling schedule_function without " ++
              "specifying a date_rule"))
   else ret tt) ;;
  let date_rule := or_else date_rule every_day in
  let time_rule :=
    if String.eqb (data_frequency (self st)) "minute"
    then or_else time_rule every_minute
    else every_minute in
  let* cal :=
    match calendar with
    | None => ret (trading_calendar (self st))
    | Some US_EQUITIES => ret (get_calendar "NYSE")
    | Some US_FUTURES => ret (get_calendar "us_futures")
    | Some other =>
        if g_ScheduleFunctionInvalidCalendar G then
          raise (ScheduleFunctionInvalidCalendar other
                   "[calendars.US_EQUITIES, calendars.US_FUTURES]")
        else raise (NameError "ScheduleFunctionInvalidCalendar")
    end in
  add_event (make_eventrule date_rule time_rule cal half_days) func.

End Methods.

(** *** Construction *)

(** A module [importlib] can find; [Backend] is its attribute of that
    name, a constructor taking the backend options. *)
Record PyModule := {
  mod_Backend : option (list (string * string) -> Backend)
}.

(** The keyword arguments [__init__] pops; [None] is an absent key. *)
Record Kwargs := {
  kw_data_frequency : option string;
  kw_backend : option string;
  kw_backend_options : option (list (string * string));
  kw_trading_calendar : option TradingCalendar
}.

(** [importlib.import_module(name)] over the modules [finder] knows. *)
Definition import_module (finder : string -> option PyModule)
    (name : string) : outcome PyModule :=
  match finder name with
  | Some m => Return m
  | None => Raise (ImportError name)
  end.

Definition or_default {A} (o : option A) (d : A) : A :=
  match o with Some x => x | None => d end.

(** [Algorithm.__init__(self, *args, **kwargs)]: the backend it builds
    and the instance it leaves.  [backendmod] is bound to a module by the
    first import and to whatever the call of [Backend] returns by the
    second. *)
Definition __init__ (G : Globals) (finder : string -> option PyModule)
    (kwargs : Kwargs) : outcome (Backend * Algorithm) :=
  let data_frequency := or_default (kw_data_frequency kwargs) "minute" in
  if negb (String.eqb data_frequency "minute" ||
           String.eqb data_frequency "daily")
  then Raise (AssertionError no_message)
  else
    let backend := or_default (kw_backend kwargs) "alpaca" in
    let backendmod : outcome (PyModule + Backend) :=
      match import_module finder ("pylivetrader.backend." ++ backend) with
      | Return m => Return (inl m)
      | Raise (ImportError _) =>
          let second : outcome (PyModule + Backend) :=
            match import_module finder backend with
            | Raise e => Raise e
            | Return m =>
                match mod_Backend m with
                | None => Raise (AttributeError "Backend")
                | Some ctor =>
                    match g_options G with
                    | None => Raise (NameError "options")
                    | Some options => Return (inr (ctor options))
                    end
                end
            end in
          match second with
          | Raise (ImportError _) =>
              Raise (RuntimeError
                       ("Could not find backend package `" ++ backend ++
                        "`."))
          | r => r
          end
      | Raise e => Raise e
      end in
    match backendmod with
    | Raise e => Raise e
    | Return (inr _) => Raise (AttributeError "Backend")
    | Return (inl m) =>
        match mod_Backend m with
        | None => Raise (AttributeError "Backend")
        | Some ctor =>
            Return
              (ctor (or_default (kw_backend_options kwargs) []),
               {| data_frequency := data_frequency;
                  trading_calendar :=
                    or_default (kw_trading_calendar kwargs)
                               (get_calendar "NYSE");
                  event_manager :=
                    [{| rule := Always; callback := "handle_data" |}];
                  _account_needs_update := true;
                  _portfolio_needs_update := true;
                  _portfolio := None;
                  _account := None;
                  datetime := None;
                  logger := None;
                  executor := None |})
        end
    end.

(** The surroundings before the instance has done anything. *)
Definition untouched : World := {|
  portfolio_fetches := 0;
  account_fetches := 0;
  orders_sent := [];
  log_output := [];
  warnings_issued := []
|}.

(** *** Notions the properties are stated with *)

(** The number of shares of [a] a portfolio holds, no position counting
    as 0. *)
Definition held (p : Portfolio) (a : Asset) : Z :=
  match positions p !! sid a with
  | Some pos => amount pos
  | None => 0
  end.

(** The caches hold a snapshot whenever their flag says they are up to
    date.  [__init__] leaves both flags raised, and only the two properties
    lower them, after storing a snapshot. *)
Definition cache_ok (st : State) : Prop :=
  (_portfolio_needs_update (self st) = false ->
   is_Some (_portfolio (self st))) /\
  (_account_needs_update (self st) = false ->
   is_Some (_account (self st))).

(** A positional price counts as set when it is there and is not zero, as
    unset when it is absent or zero. *)
Definition is_set (p : option Q) (x : Q) : Prop :=
  p = Some x /\ ~ (x == 0)%Q.

Definition is_unset (p : option Q) : Prop :=
  p = None \/ exists x, p = Some x /\ (x == 0)%Q.

(** The calendar arguments [schedule_function] accepts. *)
Definition accepted (calendar : option Sentinel) : Prop :=
  calendar = None \/ calendar = Some US_EQUITIES \/
  calendar = Some US_FUTURES.

(** The calendar an accepted argument stands for. *)
Definition calendar_for (a : Algorithm) (calendar : option Sentinel)
    : TradingCalendar :=
  match calendar with
  | Some US_EQUITIES => get_calendar "NYSE"
  | Some US_FUTURES => get_calendar "us_futures"
  | _ => trading_calendar a
  end.

End Algo.

(** ** When a scheduled event fires *)

Module Firing.
Import Model.

(** One bar of a session, as the rules look at it. *)
Record Bar := {
  session : Z;
  minutes_after_open : Z;
  minutes_before_close : Z;
  half_day : bool
}.

(** Modelled from the spec: the rules of [pylivetrader.misc.events] are
    imported by [algorithm.py] and their bodies are not part of the sources
    at hand.  [Always], every session and every minute hold at every bar;
    [AfterOpen n] and [BeforeClose n] hold [n] minutes after the open and
    [n] minutes before the close; a composite rule holds where its date
    rule and its time rule both hold, half-day sessions being left out
    when [half_days] is false. *)
Fixpoint should_trigger (r : EventRule) (b : Bar) : bool :=
  match r with
  | Always | every_day | every_minute => true
  | AfterOpen n => Z.eqb (minutes_after_open b) n
  | BeforeClose n => Z.eqb (minutes_before_close b) n
  | OnSessions eligible => eligible (session b)
  | Composite d t _ hd =>
      should_trigger d b && should_trigger t b && (hd || negb (half_day b))
  end.

(** A trading session: its day, its length in minutes, whether it is a
    half day. *)
Record Session := {
  day : Z;
  minutes : nat;
  is_half_day : bool
}.

(** Modelled from the spec: the execution loop driver is not part of the
    sources at hand.  It calls the event manager at every bar boundary of
    the data frequency: every minute of the session in minute mode, once
    per session, at its close, in daily mode. *)
Definition session_bars (data_frequency : string) (s : Session)
    : list Bar :=
  if String.eqb data_frequency "minute" then
    map (fun m => {| session := day s;
                     minutes_after_open := Z.of_nat m;
                     minutes_before_close := Z.of_nat (minutes s - m);
                     half_day := is_half_day s |})
        (seq 0 (minutes s))
  else
    [{| session := day s;
        minutes_after_open := Z.of_nat (minutes s);
        minutes_before_close := 0;
        half_day := is_half_day s |}].

(** How many times the callback of an event runs during a session. *)
Definition firings (data_frequency : string) (e : Event) (s : Session)
    : nat :=
  length (List.filter (fun b => should_trigger (rule e) b)
                 (session_bars data_frequency s)).

(** A session is eligible for a date rule when the rule selects it and,
    with [half_days] false, it is not a half day. *)
Definition eligible_session (date_rule : EventRule) (half_days : bool)
    (s : Session) : bool :=
  should_trigger date_rule
    {| session := day s; minutes_after_open := Z.of_nat (minutes s);
       minutes_before_close := 0; half_day := is_half_day s |}
  && (half_days || negb (is_half_day s)).

End Firing.

(** ** A concrete setting *)

Module Examples.
Import Model Py Algo.
Local Open Scope string_scope.

(** A listed stock. *)
Definition AAPL : Asset :=
  {| sid := 1; symbol := "AAPL";
     end_date := 86400 * 20000; auto_close_date := None |}.

(** A stock delisted on day 100 and closed out on day 103. *)
Definition OLDCO : Asset :=
  {| sid := 2; symbol := "OLDCO";
     end_date := 86400 * 100; auto_close_date := Some (86400 * 103) |}.

(** A stock past its end date that carries no auto-close date. *)
Definition STALE : Asset :=
  {| sid := 3; symbol := "STALE";
     end_date := 86400 * 100; auto_close_date := None |}.

(** 09:30 on day 200, in UTC. *)
Definition now : Datetime :=
  {| instant := 86400 * 200 + 34200; tzinfo_is_utc := true |}.

(** A portfolio holding 100 shares of [AAPL] and nothing else. *)
Definition holding_100 : Portfolio :=
  {| positions := {[ 1 := {| amount := 100 |} ]};
     portfolio_value := 15000 |}.

Definition empty_portfolio : Portfolio :=
  {| positions := ∅; portfolio_value := 15000 |}.

(** A brokerage that accepts every order; its portfolio holds the 100
    shares at the first access and is empty from the second on. *)
Definition broker : Backend :=
  {| Backend_order a n s :=
       Some {| Order_id := "order-1"; Order_asset := a; Order_amount := n |};
     Backend_portfolio n :=
       match n with O => holding_100 | S _ => empty_portfolio end;
     Backend_account n := {| buying_power := 15000 |} |}.

(** Bar data under which nothing is tradable, and under which everything
    is. *)
Definition closed_market : Executor :=
  {| current_data_can_trade _ := false |}.
Definition open_market : Executor :=
  {| current_data_can_trade _ := true |}.

(** An instance in the middle of a run, at [now]. *)
Definition instance (frequency : string) (ex : Executor) : Algorithm :=
  {| data_frequency := frequency;
     trading_calendar := get_calendar "NYSE";
     event_manager := [{| rule := Always; callback := "handle_data" |}];
     _account_needs_update := true;
     _portfolio_needs_update := true;
     _portfolio := None;
     _account := None;
     datetime := Some now;
     logger := Some true;
     executor := Some ex |}.

Definition running (ex : Executor) : State :=
  {| self := instance "minute" ex; world := untouched |}.

Definition running_daily : State :=
  {| self := instance "daily" open_market; world := untouched |}.

(** The module with a logger bound to [log] and a price bound to
    [last_price]: what the bodies would see were the names defined. *)
Definition repaired_globals (price : Q) : Globals :=
  {| g_log := true;
     g_last_price := Some price;
     g_options := Some [];
     g_ScheduleFunctionInvalidCalendar := true |}.

(** Modules [importlib] can find: the first-party [alpaca] backend and a
    third-party package [mybroker]. *)
Definition site_packages (name : string) : option PyModule :=
  if String.eqb name "pylivetrader.backend.alpaca"
  then Some {| mod_Backend := Some (fun _ => broker) |}
  else if String.eqb name "mybroker"
  then Some {| mod_Backend := Some (fun _ => broker) |}
  else None.

Definition kwargs_for (backend : string) : Kwargs :=
  {| kw_data_frequency := None;
     kw_backend := Some backend;
     kw_backend_options := None;
     kw_trading_calendar := None |}.

End Examples.

(** ** The order book *)

Module OrderBook.
Import Model.

(** An order as the book of the backend holds it: the asset it is for, its
    signed amount, and whether it is still open. *)
Record BookOrder := {
  bo_asset : Asset;
  bo_amount : Z;
  bo_open : bool
}.

(** [self._backend.orders]: a dict from order id to order; [items()] goes
    through it in insertion order. *)
Definition Book := list (string * BookOrder).

Section Queries.

(** [order.to_api_obj()], the form handed to strategy code. *)
Context {ApiOrder : Type} (to_api_obj : BookOrder -> ApiOrder).

(** The set comprehension of [get_open_orders]: the assets, by [sid], of
    the orders that are open. *)
Definition open_assets (orders : Book) : gset Z :=
  list_to_set
    (map (fun io => sid (bo_asset (snd io)))
         (List.filter (fun io => bo_open (snd io)) orders)).

(** The list comprehension of [get_open_orders] for one asset: the open
    orders of that asset, in the order of the book. *)
Definition open_orders_of (orders : Book) (s : Z) : list ApiOrder :=
  map (fun io => to_api_obj (snd io))
      (List.filter
         (fun io => Z.eqb (sid (bo_asset (snd io))) s && bo_open (snd io))
         orders).

(** [get_open_orders(self, asset=None)] on the book the backend reports.
    The parameter [asset] is rebound by the comprehension and never read. *)
Definition get_open_orders (asset : option PyObject) (orders : Book)
    : gmap Z (list ApiOrder) :=
  set_to_map (fun s => (s, open_orders_of orders s)) (open_assets orders).

(** [get_order(self, order_id)]: [None] when the id is not in the book. *)
Definition get_order (order_id : string) (orders : Book)
    : option ApiOrder :=
  match List.find (fun io => String.eqb (fst io) order_id) orders with
  | Some io => Some (to_api_obj (snd io))
  | None => None
  end.

End Queries.

End OrderBook.

(** A book of three orders: an open buy and a closed sell of [AAPL], and an
    open buy of [STALE]; strategy code sees an order as its signed amount. *)
Module BookExamples.
Import Model OrderBook.
Local Open Scope string_scope.

Definition book : Book :=
  [("o1", {| bo_asset := Examples.AAPL; bo_amount := 10; bo_open := true |});
   ("o2", {| bo_asset := Examples.AAPL; bo_amount := -5; bo_open := false |});
   ("o3", {| bo_asset := Examples.STALE; bo_amount := 7; bo_open := true |})].

End BookExamples.

(** ** Sequences of calls *)

Module Calls.
Import Model Py Algo.

(** What strategy code and the executor do to an instance between two
    looks at it. *)
Inductive Call :=
| ReadPortfolio
| ReadAccount
| Tick (dt : Datetime)
| PlaceOrder (asset : PyObject) (amount : Q) (limit_price stop_price : option Q)
             (style : option ExecutionStyle)
| Schedule (func : string) (date_rule time_rule : option EventRule)
           (half_days : bool) (calendar : option Sentinel).

(** The state a call leaves, whether it returned or raised. *)
Definition after (G : Globals) (B : Backend) (c : Call) (st : State)
    : State :=
  match c with
  | ReadPortfolio => snd (portfolio B st)
  | ReadAccount => snd (account B st)
  | Tick dt => snd (on_dt_changed dt st)
  | PlaceOrder a x lp sp style => snd (order G B a x lp sp style st)
  | Schedule f d t h c => snd (schedule_function G f d t h c st)
  end.

Definition after_all (G : Globals) (B : Backend) (cs : list Call)
    (st : State) : State :=
  fold_left (fun st c => after G B c st) cs st.

Definition is_tick (c : Call) : bool :=
  match c with Tick _ => true | _ => false end.

(** The number of clock advances among the calls. *)
Definition ticks (cs : list Call) : nat :=
  length (List.filter is_tick cs).

(** The event a successful [Schedule] call registers, [None] for the other
    calls and for a calendar that is not accepted. *)
Definition registers (a : Algorithm) (c : Call) : option Event :=
  match c with
  | Schedule f d t h (Some (OtherValue _)) => None
  | Schedule f d t h cal =>
      Some {| rule :=
                make_eventrule (or_else d every_day)
                  (if String.eqb (data_frequency a) "minute"
                   then or_else t every_minute else every_minute)
                  (calendar_for a cal) h;
              callback := f |}
  | _ => None
  end.

End Calls.

(** ** Floating-point literals *)

Module Doubles.

(** Python reads the literal [3.9999] as the binary64 number nearest to
    it: 9006974074759623 units of 2^-51, a little above 3.9999. *)
Definition double_3_9999 : Q := 9006974074759623 # 2251799813685248.

(** The default tolerance [0.0001] as a binary64 number:
    7378697629483821 units of 2^-66, a little above 0.0001. *)
Definition double_0_0001 : Q := 7378697629483821 # 73786976294838206464.

End Doubles.

(** ** Facts about the numeric helpers *)

Module NumFacts.
Import Num.

Lemma inject_Z_succ (z : Z) : (inject_Z (z + 1) == inject_Z z + 1)%Q.
Proof. rewrite inject_Z_plus. reflexivity. Qed.

Lemma inject_Z_pred (z : Z) : (inject_Z (z - 1) == inject_Z z - 1)%Q.
Proof.
  unfold Z.sub. rewrite inject_Z_plus.
  change (inject_Z (- (1))) with (- (1))%Q. ring.
Qed.

Lemma floor_bounds (a : Q) :
  (inject_Z (Qfloor a) <= a /\ a < inject_Z (Qfloor a) + 1)%Q.
Proof.
  split; [apply Qfloor_le|].
  rewrite <- inject_Z_succ. apply Qlt_floor.
Qed.

(** Two integers that bracket the same rational are equal. *)
Lemma floor_unique (a : Q) (n : Z) :
  (inject_Z n <= a)%Q -> (a < inject_Z n + 1)%Q -> Qfloor a = n.
Proof.
  intros Hlo Hhi.
  destruct (floor_bounds a) as [Flo Fhi].
  assert (H1 : (inject_Z n < inject_Z (Qfloor a + 1))%Q)
    by (rewrite inject_Z_succ; lra).
  assert (H2 : (inject_Z (Qfloor a) < inject_Z (n + 1))%Q)
    by (rewrite inject_Z_succ; lra).
  rewrite <- Zlt_Qlt in H1, H2. lia.
Qed.

Lemma py_round_near (a : Q) (n : Z) : near a n -> py_round a = n.
Proof.
  unfold near, default_epsilon. intros H.
  apply Qabs_Qle_condition in H. destruct H as [Hlo Hhi].
  unfold py_round. cbv zeta.
  destruct (Qlt_le_dec a (inject_Z n)) as [Hlt | Hge].
  - assert (F : Qfloor a = n - 1).
    { apply floor_unique; rewrite inject_Z_pred; lra. }
    rewrite F.
    assert (G : (a - inject_Z (n - 1) > 1 # 2)%Q)
      by (rewrite inject_Z_pred; lra).
    destruct (Qcompare_spec (a - inject_Z (n - 1)) (1 # 2)); [lra | lra | lia].
  - assert (F : Qfloor a = n) by (apply floor_unique; lra).
    rewrite F.
    destruct (Qcompare_spec (a - inject_Z n) (1 # 2)); [lra | reflexivity | lra].
Qed.

Lemma py_int_inject_Z (z : Z) : py_int (inject_Z z) = z.
Proof. unfold py_int. simpl. apply Z.quot_1_r. Qed.

Lemma py_int_nonneg (a : Q) : (0 <= a)%Q -> py_int a = Qfloor a.
Proof.
  destruct a as [p q]. unfold Qle, py_int, Qfloor. simpl. intros H.
  apply Z.quot_div_nonneg; lia.
Qed.

Lemma py_int_nonpos (a : Q) : (a <= 0)%Q -> py_int a = Qceiling a.
Proof.
  destruct a as [p q]. unfold Qle, py_int, Qceiling, Qfloor. simpl. intros H.
  rewrite <- (Z.opp_involutive p) at 1.
  rewrite Z.quot_opp_l by lia.
  f_equal. apply Z.quot_div_nonneg; lia.
Qed.

(** [int] drops the fractional part. *)
Lemma py_int_truncates (a : Q) : truncation_of a (py_int a).
Proof.
  split; intros H.
  - rewrite (py_int_nonneg a H). apply floor_bounds.
  - rewrite (py_int_nonpos a H). split; [apply Qle_ceiling|].
    rewrite <- inject_Z_pred. apply Qceiling_lt.
Qed.

Lemma round_if_near_integer_near (a : Q) (n : Z) :
  near a n -> round_if_near_integer a default_epsilon = inject_Z n.
Proof.
  intros H. unfold round_if_near_integer.
  rewrite (py_round_near a n H).
  apply Qle_bool_iff in H. rewrite H. reflexivity.
Qed.

Lemma round_if_near_integer_far (a : Q) :
  (forall n, ~ near a n) -> round_if_near_integer a default_epsilon = a.
Proof.
  intros H. unfold round_if_near_integer.
  destruct (Qle_bool _ _) eqn:E; [|reflexivity].
  apply Qle_bool_iff in E. destruct (H (py_round a) E).
Qed.

Lemma round_order_near (a : Q) (n : Z) : near a n -> round_order a = n.
Proof.
  intros H. unfold round_order.
  rewrite (round_if_near_integer_near a n H). apply py_int_inject_Z.
Qed.

Lemma round_order_far (a : Q) :
  (forall n, ~ near a n) -> round_order a = py_int a.
Proof.
  intros H. unfold round_order.
  rewrite (round_if_near_integer_far a H). reflexivity.
Qed.

Lemma round_order_inject_Z (z : Z) : round_order (inject_Z z) = z.
Proof.
  apply round_order_near. unfold near, default_epsilon.
  apply Qabs_Qle_condition. split; lra.
Qed.

(** The helpers do not tell apart two fractions of the same value. *)
Lemma py_round_comp (a b : Q) : (a == b)%Q -> py_round a = py_round b.
Proof.
  intros E. unfold py_round. cbv zeta.
  rewrite <- (Qfloor_comp a b E).
  assert (C : ((a - inject_Z (Qfloor a) ?= 1 # 2)
               = (b - inject_Z (Qfloor a) ?= 1 # 2))%Q)
    by (apply Qcompare_comp; [apply Qplus_comp; [exact E|]|]; reflexivity).
  rewrite C. reflexivity.
Qed.

Lemma py_int_comp (a b : Q) : (a == b)%Q -> py_int a = py_int b.
Proof.
  intros E. destruct (Qlt_le_dec a 0) as [L | L].
  - rewrite (py_int_nonpos a), (py_int_nonpos b) by lra.
    apply Qceiling_comp, E.
  - rewrite (py_int_nonneg a), (py_int_nonneg b) by lra.
    apply Qfloor_comp, E.
Qed.

Lemma round_if_near_integer_comp (a b e : Q) :
  (a == b)%Q -> (round_if_near_integer a e == round_if_near_integer b e)%Q.
Proof.
  intros E. unfold round_if_near_integer.
  rewrite <- (py_round_comp a b E).
  generalize (py_round a). intros r.
  destruct (Qle_bool (Qabs (a - inject_Z r)) e) eqn:Ha;
    destruct (Qle_bool (Qabs (b - inject_Z r)) e) eqn:Hb;
    try reflexivity; try exact E.
  - apply Qle_bool_iff in Ha. rewrite E in Ha. apply Qle_bool_iff in Ha.
    congruence.
  - apply Qle_bool_iff in Hb. rewrite <- E in Hb. apply Qle_bool_iff in Hb.
    congruence.
Qed.

Lemma round_order_comp (a b : Q) : (a == b)%Q -> round_order a = round_order b.
Proof.
  intros E. unfold round_order.
  apply py_int_comp, round_if_near_integer_comp, E.
Qed.

End NumFacts.

(** ** Facts about the methods *)

Module AlgoFacts.
Import Num Model Py Algo.
Local Open Scope string_scope.

(** Unfolds the plumbing of [M]. *)
Ltac run :=
  unfold bind, ret, raise, get, modify_self, modify_world, with_asset;
  simpl.

Section Facts.
Context (G : Globals) (B : Backend).

(** The check never touches the instance; only a log line can be added
    on the way. *)
Lemma can_order_no_auto_close (a : Asset) (st : State) :
  auto_close_date a = None ->
  _can_order_asset G (AssetObj a) st = (Return true, st).
Proof. intros H. unfold _can_order_asset. rewrite H. reflexivity. Qed.

Lemma can_order_foreign_object (repr : string) (st : State) :
  exists msg,
    _can_order_asset G (OtherObj repr) st
    = (Raise (UnsupportedOrderParameters msg), st).
Proof. eexists. reflexivity. Qed.

(** Resolving the style has no effect. *)
Lemma convert_state (lp sp : option Q) (style : option ExecutionStyle)
    (st : State) :
  snd (__convert_order_params_for_blotter lp sp style st) = st.
Proof.
  unfold __convert_order_params_for_blotter.
  destruct style; [destruct lp, sp; reflexivity|].
  destruct (truthy_price lp), (truthy_price sp); reflexivity.
Qed.

Lemma convert_defaults (st : State) :
  __convert_order_params_for_blotter None None None st
  = (Return MarketOrder, st).
Proof. reflexivity. Qed.

(** [order] on an asset that passes the check: the amount is rounded, the
    style resolved, and the backend is asked once. *)
Lemma order_orderable (a : Asset) (amount : Q) (lp sp : option Q)
    (style : option ExecutionStyle) (s : ExecutionStyle) (st : State) :
  _can_order_asset G (AssetObj a) st = (Return true, st) ->
  __convert_order_params_for_blotter lp sp style st = (Return s, st) ->
  order G B (AssetObj a) amount lp sp style st
  = (Return (option_map Order_id
               (Backend_order B a (round_order amount) s)),
     {| self := self st;
        world := record_order (a, round_order amount, s) (world st) |}).
Proof.
  intros Hc Hs. unfold order, bind at 1. rewrite Hc. simpl.
  unfold with_asset, _calculate_order, bind. rewrite Hs. simpl.
  unfold backend_order, bind, modify_world, ret. simpl.
  destruct (Backend_order B a (round_order amount) s); reflexivity.
Qed.

End Facts.

End AlgoFacts.

(** ** The tradability check and plain orders *)

Section Orders.
Import Num Model Py Algo NumFacts AlgoFacts.
Local Open Scope string_scope.

(** C10: for every resolved asset whose [auto_close_date] is absent,
    [_can_order_asset] answers true and leaves the state as it is, whatever
    the asset's [end_date] and whatever the clock says (or even before the
    clock was ever set); a plain [order] on such an asset therefore reaches
    the backend, with the rounded amount. *)
Theorem can_order_without_auto_close_date
    (G : Globals) (B : Backend) (a : Asset) (st : State) :
  auto_close_date a = None ->
  _can_order_asset G (AssetObj a) st = (Return true, st) /\
  forall amount : Q,
    order G B (AssetObj a) amount None None None st
    = (Return (option_map Order_id
                 (Backend_order B a (round_order amount) MarketOrder)),
       {| self := self st;
          world := record_order (a, round_order amount, MarketOrder)
                     (world st) |}).
Proof.
  intros H. split.
  - apply can_order_no_auto_close, H.
  - intros amount. apply order_orderable.
    + apply can_order_no_auto_close, H.
    + apply convert_defaults.
Qed.

(** C10 at an asset whose end date lies a hundred days back. *)
Lemma can_order_without_auto_close_date_witness :
  auto_close_date Examples.STALE = None /\
  (end_date Examples.STALE < normalize_date Examples.now)%Z /\
  orders_sent
    (world (snd (order module_globals Examples.broker
                   (AssetObj Examples.STALE) 10 None None None
                   (Examples.running Examples.open_market))))
  = [(Examples.STALE, 10%Z, MarketOrder)].
Proof.
  split; [reflexivity|]. split; [reflexivity|].
  rewrite (proj2 (can_order_without_auto_close_date
                    module_globals Examples.broker Examples.STALE
                    (Examples.running Examples.open_market) eq_refl) 10%Q).
  reflexivity.
Defined.

(** No whole number is within the tolerance of five and a half. *)
Lemma five_and_a_half_is_far (n : Z) : ~ near (11 # 2) n.
Proof.
  unfold near, default_epsilon. intros H.
  apply Qabs_Qle_condition in H. destruct H as [Hlo Hhi].
  destruct (Z_le_gt_dec n 5) as [L | L].
  - rewrite Zle_Qle in L. change (inject_Z 5) with 5%Q in L. lra.
  - assert (L' : (6 <= n)%Z) by lia.
    rewrite Zle_Qle in L'. change (inject_Z 6) with 6%Q in L'. lra.
Qed.

(** In exact arithmetic [round_order] gives the whole number the amount is
    within 0.0001 of, when there is one, and the amount truncated toward zero
    otherwise; it sends the fraction 39999/10000 to 4, 5.5 to 5 and -5.5 to
    -5; and [order], on an asset that passes the tradability check, hands the
    backend the rounded amount. *)
Theorem round_order_snaps_or_truncates (G : Globals) (B : Backend) :
  (forall (a : Q) (n : Z), near a n -> round_order a = n) /\
  (forall a : Q, (forall n, ~ near a n) -> truncation_of a (round_order a)) /\
  round_order (39999 # 10000) = 4 /\
  round_order (11 # 2) = 5 /\
  round_order (- (11 # 2)) = -5 /\
  (forall (a : Asset) (amount : Q) (lp sp : option Q)
          (style : option ExecutionStyle) (s : ExecutionStyle) (st : State),
     _can_order_asset G (AssetObj a) st = (Return true, st) ->
     __convert_order_params_for_blotter lp sp style st = (Return s, st) ->
     orders_sent
       (world (snd (order G B (AssetObj a) amount lp sp style st)))
     = (orders_sent (world st) ++ [(a, round_order amount, s)])%list).
Proof.
  split; [exact round_order_near|].
  split.
  { intros a H. rewrite (round_order_far a H). apply py_int_truncates. }
  split; [reflexivity|]. split; [reflexivity|]. split; [reflexivity|].
  intros a amount lp sp style s st Hc Hs.
  rewrite (order_orderable G B a amount lp sp style s st Hc Hs).
  reflexivity.
Qed.

(** The same at the fraction 39999/10000, which is within the tolerance
    of 4, at 5.5, which is within the tolerance of no whole number, and at an
    order of 39999/10000 shares. *)
Lemma round_order_snaps_or_truncates_witness :
  (near (39999 # 10000) 4 /\ round_order (39999 # 10000) = 4) /\
  truncation_of (11 # 2) (round_order (11 # 2)) /\
  orders_sent
    (world (snd (order module_globals Examples.broker
                   (AssetObj Examples.AAPL) (39999 # 10000)
                   (Some (150 # 1)) None None
                   (Examples.running Examples.open_market))))
  = [(Examples.AAPL, 4, LimitOrder (150 # 1))].
Proof.
  pose proof (round_order_snaps_or_truncates module_globals Examples.broker)
    as [Hnear [Hfar [_ [_ [_ Horder]]]]].
  split; [|split].
  - assert (N : near (39999 # 10000) 4)
      by (unfold near, default_epsilon, Qle; simpl; lia).
    split; [exact N | exact (Hnear _ _ N)].
  - exact (Hfar _ five_and_a_half_is_far).
  - exact (Horder Examples.AAPL (39999 # 10000) (Some (150 # 1)) None None
             (LimitOrder (150 # 1))
             (Examples.running Examples.open_market) eq_refl eq_refl).
Defined.

End Orders.

(** ** The cached snapshots *)

Module CacheFacts.
Import Num Model Py Algo.
Local Open Scope string_scope.

Section Facts.
Context (G : Globals) (B : Backend).

(** A read with the flag raised asks the backend once and stores the
    answer. *)
Lemma portfolio_stale (st : State) :
  _portfolio_needs_update (self st) = true ->
  portfolio B st
  = (Return {| fetch_no := portfolio_fetches (world st);
               value := Backend_portfolio B (portfolio_fetches (world st)) |},
     {| self := set_portfolio_needs_update false
                  (set_portfolio
                     {| fetch_no := portfolio_fetches (world st);
                        value := Backend_portfolio B
                                   (portfolio_fetches (world st)) |}
                     (self st));
        world := count_portfolio_fetch (world st) |}).
Proof.
  intros H. unfold portfolio, bind at 1, get. rewrite H. reflexivity.
Qed.

(** A read with the flag lowered returns what is stored and changes
    nothing. *)
Lemma portfolio_cached (st : State) (p : Fetched Portfolio) :
  _portfolio_needs_update (self st) = false ->
  _portfolio (self st) = Some p ->
  portfolio B st = (Return p, st).
Proof.
  intros H1 H2. unfold portfolio, bind, get, ret. rewrite H1. simpl.
  rewrite H2. reflexivity.
Qed.

Lemma account_stale (st : State) :
  _account_needs_update (self st) = true ->
  account B st
  = (Return {| fetch_no := account_fetches (world st);
               value := Backend_account B (account_fetches (world st)) |},
     {| self := set_account_needs_update false
                  (set_account
                     {| fetch_no := account_fetches (world st);
                        value := Backend_account B
                                   (account_fetches (world st)) |}
                     (self st));
        world := count_account_fetch (world st) |}).
Proof.
  intros H. unfold account, bind at 1, get. rewrite H. reflexivity.
Qed.

Lemma account_cached (st : State) (p : Fetched Account) :
  _account_needs_update (self st) = false ->
  _account (self st) = Some p ->
  account B st = (Return p, st).
Proof.
  intros H1 H2. unfold account, bind, get, ret. rewrite H1. simpl.
  rewrite H2. reflexivity.
Qed.

(** What a successful read leaves behind. *)
Lemma portfolio_returns (st st1 : State) (p : Fetched Portfolio) :
  portfolio B st = (Return p, st1) ->
  _portfolio_needs_update (self st1) = false /\
  _portfolio (self st1) = Some p /\
  datetime (self st1) = datetime (self st) /\
  orders_sent (world st1) = orders_sent (world st) /\
  (portfolio_fetches (world st1) <= S (portfolio_fetches (world st)))%nat.
Proof.
  destruct (_portfolio_needs_update (self st)) eqn:F.
  - rewrite (portfolio_stale st F). intros E. inversion E. subst. simpl.
    repeat split; auto.
  - unfold portfolio, bind, get, ret. rewrite F. simpl.
    destruct (_portfolio (self st)) eqn:P; intros E; inversion E; subst.
    repeat split; auto.
Qed.

Lemma account_returns (st st1 : State) (p : Fetched Account) :
  account B st = (Return p, st1) ->
  _account_needs_update (self st1) = false /\
  _account (self st1) = Some p /\
  (account_fetches (world st1) <= S (account_fetches (world st)))%nat.
Proof.
  destruct (_account_needs_update (self st)) eqn:F.
  - rewrite (account_stale st F). intros E. inversion E. subst. simpl.
    repeat split; auto.
  - unfold account, bind, get, ret. rewrite F. simpl.
    destruct (_account (self st)) eqn:P; intros E; inversion E; subst.
    repeat split; auto.
Qed.

(** The tradability check looks at the clock and at nothing else of the
    state. *)
Lemma can_order_depends_on_clock (o : PyObject) (st st' : State) :
  datetime (self st) = datetime (self st') ->
  _can_order_asset G o st = (Return true, st) ->
  _can_order_asset G o st' = (Return true, st').
Proof.
  intros D. destruct o as [a | r]; simpl; [|discriminate].
  destruct (auto_close_date a) as [acd |]; [|reflexivity].
  cbv [bind get_datetime get log_warn ret raise modify_world].
  rewrite <- D.
  destruct (datetime (self st)) as [dt |]; [|discriminate].
  destruct (tzinfo_is_utc dt); [|discriminate].
  destruct (Z.min (end_date a) acd <? normalize_date dt)%Z; [|reflexivity].
  destruct (g_log G); discriminate.
Qed.

(** The size [order_target] computes, and the state it leaves: that of one
    portfolio read. *)
Lemma target_amount (a : Asset) (target : Q) (st st1 : State)
    (p : Fetched Portfolio) :
  portfolio B st = (Return p, st1) ->
  exists q,
    _calculate_order_target_amount B a target st = (Return q, st1) /\
    (q == target - inject_Z (held (value p) a))%Q.
Proof.
  intros R. destruct (portfolio_returns st st1 p R) as (F & P & _).
  unfold _calculate_order_target_amount, bind at 1. rewrite R.
  unfold held. destruct (positions (value p) !! sid a) as [pos |] eqn:L.
  - unfold bind. rewrite (portfolio_cached st1 p F P). rewrite L.
    eexists. split; [reflexivity|]. reflexivity.
  - eexists. split; [reflexivity|]. simpl. unfold inject_Z. ring.
Qed.

End Facts.

End CacheFacts.

(** ** Target orders and the portfolio cache *)

Section Snapshots.
Import Num Model Py Algo NumFacts AlgoFacts CacheFacts.
Local Open Scope string_scope.

(** [order_target] on an asset that passes the check: one portfolio read,
    then an order for the difference. *)
Lemma order_target_orderable (G : Globals) (B : Backend) (a : Asset)
    (target : Q) (st st1 : State) (p : Fetched Portfolio) :
  portfolio B st = (Return p, st1) ->
  _can_order_asset G (AssetObj a) st = (Return true, st) ->
  orders_sent
    (world (snd (order_target G B (AssetObj a) target None None None st)))
  = (orders_sent (world st) ++
     [(a, round_order (target - inject_Z (held (value p) a)), MarketOrder)])%list.
Proof.
  intros R C.
  destruct (target_amount B a target st st1 p R) as (q & Hq & Eq).
  destruct (portfolio_returns B st st1 p R) as (_ & _ & D & O & _).
  unfold order_target, bind at 1. rewrite C. simpl.
  unfold bind at 1, with_asset. rewrite Hq.
  rewrite (order_orderable G B a q None None None MarketOrder st1).
  - simpl. rewrite O, (round_order_comp _ _ Eq). reflexivity.
  - apply (can_order_depends_on_clock G (AssetObj a) st st1); auto.
  - apply convert_defaults.
Qed.



(** Two reads in a row: the second returns the very snapshot of the first
    and touches nothing. *)
Lemma portfolio_twice (B : Backend) (st : State) :
  cache_ok st ->
  exists p st1,
    portfolio B st = (Return p, st1) /\
    portfolio B st1 = (Return p, st1) /\
    (portfolio_fetches (world st1) <= S (portfolio_fetches (world st)))%nat.
Proof.
  intros [Hp _].
  destruct (_portfolio_needs_update (self st)) eqn:F.
  - eexists. eexists. split; [apply (portfolio_stale B st F)|].
    split; [|simpl; lia].
    apply portfolio_cached; reflexivity.
  - destruct (Hp eq_refl) as [p P].
    exists p, st. rewrite (portfolio_cached B st p F P).
    split; [reflexivity|]. split; [reflexivity|lia].
Qed.

Lemma account_twice (B : Backend) (st : State) :
  cache_ok st ->
  exists p st1,
    account B st = (Return p, st1) /\
    account B st1 = (Return p, st1) /\
    (account_fetches (world st1) <= S (account_fetches (world st)))%nat.
Proof.
  intros [_ Ha].
  destruct (_account_needs_update (self st)) eqn:F.
  - eexists. eexists. split; [apply (account_stale B st F)|].
    split; [|simpl; lia].
    apply account_cached; reflexivity.
  - destruct (Ha eq_refl) as [p P].
    exists p, st. rewrite (account_cached B st p F P).
    split; [reflexivity|]. split; [reflexivity|lia].
Qed.

(** C6: two reads of [portfolio] (or of [account]) in a row return the
    same snapshot object, the second without any effect, so that the two
    together ask the backend at most once; [on_dt_changed] raises both flags;
    and the read that follows a clock advance asks the backend exactly once,
    returning the answer to that very access, which the read after it
    returns again. *)
Theorem snapshots_are_cached_until_the_clock_moves
    (B : Backend) (st : State) (dt : Datetime) :
  (cache_ok st ->
   (exists p st1,
      portfolio B st = (Return p, st1) /\
      portfolio B st1 = (Return p, st1) /\
      (portfolio_fetches (world st1) <= S (portfolio_fetches (world st)))%nat)
   /\
   (exists p st1,
      account B st = (Return p, st1) /\
      account B st1 = (Return p, st1) /\
      (account_fetches (world st1) <= S (account_fetches (world st)))%nat))
  /\
  (exists st',
     on_dt_changed dt st = (Return tt, st') /\
     _portfolio_needs_update (self st') = true /\
     _account_needs_update (self st') = true /\
     datetime (self st') = Some dt /\
     world st' = world st /\
     (exists p st2,
        portfolio B st' = (Return p, st2) /\
        fetch_no p = portfolio_fetches (world st) /\
        value p = Backend_portfolio B (portfolio_fetches (world st)) /\
        portfolio_fetches (world st2) = S (portfolio_fetches (world st)) /\
        portfolio B st2 = (Return p, st2)) /\
     (exists p st2,
        account B st' = (Return p, st2) /\
        fetch_no p = account_fetches (world st) /\
        value p = Backend_account B (account_fetches (world st)) /\
        account_fetches (world st2) = S (account_fetches (world st)) /\
        account B st2 = (Return p, st2))).
Proof.
  split.
  - intros H. split; [apply portfolio_twice, H | apply account_twice, H].
  - eexists. split; [reflexivity|]. simpl.
    repeat (split; [reflexivity|]). split.
    + eexists. eexists. split; [apply portfolio_stale; reflexivity|].
      simpl. repeat (split; [reflexivity|]).
      apply portfolio_cached; reflexivity.
    + eexists. eexists. split; [apply account_stale; reflexivity|].
      simpl. repeat (split; [reflexivity|]).
      apply account_cached; reflexivity.
Qed.

(** C6 at the start of a run: the first read fetches the 100 shares, the
    second returns the same snapshot, and one access has been made. *)
Lemma snapshots_are_cached_until_the_clock_moves_witness :
  cache_ok (Examples.running Examples.open_market) /\
  exists p st1,
    portfolio Examples.broker (Examples.running Examples.open_market)
    = (Return p, st1) /\
    portfolio Examples.broker st1 = (Return p, st1) /\
    (portfolio_fetches (world st1) <= 1)%nat.
Proof.
  assert (H : cache_ok (Examples.running Examples.open_market))
    by (split; intros E; discriminate E).
  split; [exact H|].
  exact (proj1 (proj1 (snapshots_are_cached_until_the_clock_moves
                         Examples.broker
                         (Examples.running Examples.open_market)
                         Examples.now) H)).
Defined.

End Snapshots.

(** ** Scheduling *)

Section Scheduling.
Import Model Py Algo Firing.
Local Open Scope string_scope.

(** With an accepted calendar [schedule_function] returns, having added one
    event at the end of the event manager's sequence. *)
Lemma schedule_function_accepted (G : Globals) (func : string)
    (dr tr : option EventRule) (hd : bool) (cal : option Sentinel)
    (st : State) :
  accepted cal ->
  exists st',
    schedule_function G func dr tr hd cal st = (Return tt, st') /\
    event_manager (self st')
    = (event_manager (self st) ++
       [{| rule :=
             make_eventrule (or_else dr every_day)
               (if String.eqb (data_frequency (self st)) "minute"
                then or_else tr every_minute else every_minute)
               (calendar_for (self st) cal) hd;
           callback := func |}])%list.
Proof.
  intros [H | [H | H]]; subst cal;
    unfold schedule_function;
    cbv [bind get ret modify_world modify_self add_event];
    destruct (is_time_rule_instance dr && negb (given tr));
    eexists; (split; [reflexivity|]); reflexivity.
Qed.

(** A composite of a date rule and the every-minute rule fires once in a
    daily session the date rule makes eligible, and not at all in another. *)
Lemma daily_firings (frequency func : string) (d : EventRule)
    (c : TradingCalendar) (hd : bool) (s : Session) :
  frequency <> "minute" ->
  firings frequency
    {| rule := make_eventrule d every_minute c hd; callback := func |} s
  = if eligible_session d hd s then 1%nat else 0%nat.
Proof.
  intros F. unfold firings, session_bars.
  apply String.eqb_neq in F. rewrite F. simpl.
  unfold eligible_session.
  rewrite andb_true_r.
  destruct (should_trigger d _ && (hd || negb (is_half_day s)));
    reflexivity.
Qed.

(** C8: in daily data frequency the event [schedule_function] registers
    carries the every-minute rule whatever time rule was passed, so that its
    callback runs exactly once in every eligible session (and in no other);
    in minute data frequency an absent time rule becomes the every-minute
    rule, and a given one is kept. *)
Theorem daily_mode_ignores_the_time_rule (G : Globals) (func : string)
    (dr tr : option EventRule) (hd : bool) (cal : option Sentinel)
    (st : State) :
  accepted cal ->
  exists (st' : State) (e : Event),
    schedule_function G func dr tr hd cal st = (Return tt, st') /\
    event_manager (self st') = (event_manager (self st) ++ [e])%list /\
    callback e = func /\
    (data_frequency (self st) = "daily" ->
     rule e = make_eventrule (or_else dr every_day) every_minute
                (calendar_for (self st) cal) hd /\
     forall s : Session,
       firings (data_frequency (self st)) e s
       = if eligible_session (or_else dr every_day) hd s
         then 1%nat else 0%nat) /\
    (data_frequency (self st) = "minute" ->
     (tr = None ->
      rule e = make_eventrule (or_else dr every_day) every_minute
                 (calendar_for (self st) cal) hd) /\
     (forall r, tr = Some r ->
      rule e = make_eventrule (or_else dr every_day) r
                 (calendar_for (self st) cal) hd)).
Proof.
  intros A.
  destruct (schedule_function_accepted G func dr tr hd cal st A)
    as (st' & R & E).
  eexists. eexists. split; [exact R|]. split; [exact E|].
  split; [reflexivity|]. simpl. split.
  - intros D. rewrite D. simpl. split; [reflexivity|].
    intros s. apply daily_firings. discriminate.
  - intros D. rewrite D. simpl. split.
    + intros T. rewrite T. reflexivity.
    + intros r T. rewrite T. reflexivity.
Qed.

(** C8 in daily mode, scheduling [rebalance] for thirty minutes after the
    open: the registered rule is the every-minute one, and the callback runs
    once in a full session of 390 minutes. *)
Lemma daily_mode_ignores_the_time_rule_witness :
  accepted None /\
  exists (st' : State) (e : Event),
    schedule_function module_globals "rebalance" None (Some (AfterOpen 30))
      true None Examples.running_daily = (Return tt, st') /\
    event_manager (self st')
    = [{| rule := Always; callback := "handle_data" |}; e] /\
    rule e = make_eventrule every_day every_minute (get_calendar "NYSE") true /\
    firings "daily" e {| day := 200; minutes := 390; is_half_day := false |}
    = 1%nat.
Proof.
  split; [left; reflexivity|].
  destruct (daily_mode_ignores_the_time_rule module_globals "rebalance" None
              (Some (AfterOpen 30)) true None Examples.running_daily
              (or_introl eq_refl))
    as (st' & e & R & E & _ & D & _).
  exists st', e. split; [exact R|]. split; [exact E|].
  destruct (D eq_refl) as [Hr Hf]. split; [exact Hr|].
  exact (Hf {| day := 200; minutes := 390; is_half_day := false |}).
Defined.

End Scheduling.

(** ** Resolving the execution style *)

Section Styles.
Import Model Py Algo.
Local Open Scope string_scope.

Lemma truthy_price_set (p : option Q) (x : Q) :
  is_set p x -> truthy_price p = true /\ price_of p = x.
Proof.
  intros [E N]. subst p. simpl. split; [|reflexivity].
  destruct (Qeq_bool x 0) eqn:Q; [|reflexivity].
  apply Qeq_bool_iff in Q. contradiction.
Qed.

Lemma truthy_price_unset (p : option Q) :
  is_unset p -> truthy_price p = false.
Proof.
  intros [E | (x & E & Z)]; subst p; simpl; [reflexivity|].
  apply Qeq_bool_iff in Z. rewrite Z. reflexivity.
Qed.

(** C5, as the code has it: a style that is passed is returned as it is
    when both positional prices are absent, and an assertion fails when a
    price comes with it; without a style, a zero price counting as unset,
    both prices set give [StopLimitOrder], the limit alone [LimitOrder], the
    stop alone [StopOrder], and neither [MarketOrder].  No case has an
    effect on the state. *)
Theorem style_resolution_precedence
    (lp sp : option Q) (style : option ExecutionStyle) (st : State) :
  (forall s, style = Some s -> lp = None -> sp = None ->
     __convert_order_params_for_blotter lp sp style st = (Return s, st)) /\
  (forall s, style = Some s -> lp <> None \/ sp <> None ->
     exists msg,
       __convert_order_params_for_blotter lp sp style st
       = (Raise (AssertionError msg), st)) /\
  (forall l s, style = None -> is_set lp l -> is_set sp s ->
     __convert_order_params_for_blotter lp sp style st
     = (Return (StopLimitOrder l s), st)) /\
  (forall l, style = None -> is_set lp l -> is_unset sp ->
     __convert_order_params_for_blotter lp sp style st
     = (Return (LimitOrder l), st)) /\
  (forall s, style = None -> is_unset lp -> is_set sp s ->
     __convert_order_params_for_blotter lp sp style st
     = (Return (StopOrder s), st)) /\
  (style = None -> is_unset lp -> is_unset sp ->
     __convert_order_params_for_blotter lp sp style st
     = (Return MarketOrder, st)).
Proof.
  unfold __convert_order_params_for_blotter.
  repeat split.
  - intros s -> -> ->. reflexivity.
  - intros s -> [H | H]; exists no_message; destruct lp, sp; try reflexivity;
      contradiction.
  - intros l s -> Hl Hs.
    destruct (truthy_price_set lp l Hl) as [-> ->].
    destruct (truthy_price_set sp s Hs) as [-> ->]. reflexivity.
  - intros l -> Hl Hs.
    destruct (truthy_price_set lp l Hl) as [-> ->].
    rewrite (truthy_price_unset sp Hs). reflexivity.
  - intros s -> Hl Hs.
    rewrite (truthy_price_unset lp Hl).
    destruct (truthy_price_set sp s Hs) as [-> ->]. reflexivity.
  - intros -> Hl Hs.
    rewrite (truthy_price_unset lp Hl), (truthy_price_unset sp Hs).
    reflexivity.
Qed.

(** C5 at a limit of 150 with no stop and no style. *)
Lemma style_resolution_precedence_witness :
  is_set (Some (150 # 1)) (150 # 1) /\ is_unset None /\
  __convert_order_params_for_blotter (Some (150 # 1)) None None
    (Examples.running Examples.open_market)
  = (Return (LimitOrder (150 # 1)), Examples.running Examples.open_market).
Proof.
  assert (L : is_set (Some (150 # 1)) (150 # 1))
    by (split; [reflexivity | intros E; discriminate E]).
  assert (S : is_unset None) by (left; reflexivity).
  split; [exact L|]. split; [exact S|].
  exact (proj1 (proj2 (proj2 (proj2
           (style_resolution_precedence (Some (150 # 1)) None None
              (Examples.running Examples.open_market)))))
           (150 # 1) eq_refl L S).
Defined.

(** C5 as the specification words it fails at a limit price of zero: the
    limit is passed and the stop is not, yet the style is [MarketOrder], not
    a limit order; and a style passed along with that zero price fails the
    assertion although no price counts as set. *)
Lemma zero_limit_price_counts_as_unset :
  __convert_order_params_for_blotter (Some 0%Q) None None
    (Examples.running Examples.open_market)
  = (Return MarketOrder, Examples.running Examples.open_market) /\
  MarketOrder <> LimitOrder 0 /\
  __convert_order_params_for_blotter (Some 0%Q) None (Some MarketOrder)
    (Examples.running Examples.open_market)
  = (Raise (AssertionError no_message), Examples.running Examples.open_market).
Proof.
  split; [reflexivity|]. split; [discriminate|reflexivity].
Qed.

End Styles.

(** ** Assets that are no longer tradable *)

Section Delisted.
Import Num Model Py Algo AlgoFacts.
Local Open Scope string_scope.

(** The check on an asset whose auto-close date lies before today: it gets
    as far as the warning. *)
Lemma can_order_closed_out (G : Globals) (a : Asset) (acd : Timestamp)
    (dt : Datetime) (st : State) :
  auto_close_date a = Some acd ->
  datetime (self st) = Some dt ->
  tzinfo_is_utc dt = true ->
  (acd < normalize_date dt)%Z ->
  _can_order_asset G (AssetObj a) st
  = if g_log G
    then (Return false,
          {| self := self st;
             world := record_log ("Cannot place order for " ++ symbol a ++
                                  ", as it is not tradable.") (world st) |})
    else (Raise (NameError "log"), st).
Proof.
  intros A D U L. unfold _can_order_asset. rewrite A.
  cbv [bind get_datetime get log_warn ret raise modify_world].
  rewrite D, U.
  assert (C : (Z.min (end_date a) acd <? normalize_date dt)%Z = true)
    by (apply Z.ltb_lt; lia).
  rewrite C. destruct (g_log G); reflexivity.
Qed.

(** Both entry points stop at the check on such an asset. *)
Lemma order_closed_out (G : Globals) (B : Backend) (a : Asset)
    (acd : Timestamp) (dt : Datetime) (amount : Q) (lp sp : option Q)
    (style : option ExecutionStyle) (st : State) :
  auto_close_date a = Some acd ->
  datetime (self st) = Some dt ->
  tzinfo_is_utc dt = true ->
  (acd < normalize_date dt)%Z ->
  order G B (AssetObj a) amount lp sp style st
  = if g_log G
    then (Return None,
          {| self := self st;
             world := record_log ("Cannot place order for " ++ symbol a ++
                                  ", as it is not tradable.") (world st) |})
    else (Raise (NameError "log"), st).
Proof.
  intros A D U L. unfold order, bind.
  rewrite (can_order_closed_out G a acd dt st A D U L).
  destruct (g_log G); reflexivity.
Qed.

Lemma order_value_closed_out (G : Globals) (B : Backend) (a : Asset)
    (acd : Timestamp) (dt : Datetime) (value : Q) (lp sp : option Q)
    (style : option ExecutionStyle) (st : State) :
  auto_close_date a = Some acd ->
  datetime (self st) = Some dt ->
  tzinfo_is_utc dt = true ->
  (acd < normalize_date dt)%Z ->
  order_value G B (AssetObj a) value lp sp style st
  = if g_log G
    then (Return None,
          {| self := self st;
             world := record_log ("Cannot place order for " ++ symbol a ++
                                  ", as it is not tradable.") (world st) |})
    else (Raise (NameError "log"), st).
Proof.
  intros A D U L. unfold order_value, bind.
  rewrite (can_order_closed_out G a acd dt st A D U L).
  destruct (g_log G); reflexivity.
Qed.

(** [order_value] on an asset that passes the check while the bar data
    reports it as not tradable. *)
Lemma order_value_not_tradable (G : Globals) (B : Backend) (a : Asset)
    (ex : Executor) (value : Q) (lp sp : option Q)
    (style : option ExecutionStyle) (st : State) :
  _can_order_asset G (AssetObj a) st = (Return true, st) ->
  executor (self st) = Some ex ->
  current_data_can_trade ex a = false ->
  order_value G B (AssetObj a) value lp sp style st
  = (Raise (CannotOrderDelistedAsset
              ("Cannot order " ++ symbol a ++ ", as it not tradable")), st).
Proof.
  intros C E T. unfold order_value, bind at 1. rewrite C. simpl.
  unfold bind, with_asset, _calculate_order_value_amount, bind, get.
  rewrite E, T. reflexivity.
Qed.

(** C1, as the code has it: [order_value] raises
    [CannotOrderDelistedAsset] on an asset that passes the tradability check
    when the current bar data reports the asset as not tradable, and nothing
    is sent to the backend; on an asset whose [auto_close_date] lies before
    the current day, [order_value] stops at the same check as [order]:
    neither of them raises [CannotOrderDelistedAsset], and neither sends an
    order to the backend. *)
Theorem delisting_raises_only_past_the_check
    (G : Globals) (B : Backend) (a : Asset) (lp sp : option Q)
    (style : option ExecutionStyle) (st : State) :
  (forall (ex : Executor) (value : Q),
     _can_order_asset G (AssetObj a) st = (Return true, st) ->
     executor (self st) = Some ex ->
     current_data_can_trade ex a = false ->
     exists msg,
       order_value G B (AssetObj a) value lp sp style st
       = (Raise (CannotOrderDelistedAsset msg), st)) /\
  (forall (acd : Timestamp) (dt : Datetime) (x : Q),
     auto_close_date a = Some acd ->
     datetime (self st) = Some dt ->
     tzinfo_is_utc dt = true ->
     (acd < normalize_date dt)%Z ->
     (forall msg,
        fst (order_value G B (AssetObj a) x lp sp style st)
        <> Raise (CannotOrderDelistedAsset msg)) /\
     (forall msg,
        fst (order G B (AssetObj a) x lp sp style st)
        <> Raise (CannotOrderDelistedAsset msg)) /\
     orders_sent (world (snd (order_value G B (AssetObj a) x lp sp style st)))
     = orders_sent (world st) /\
     orders_sent (world (snd (order G B (AssetObj a) x lp sp style st)))
     = orders_sent (world st)).
Proof.
  split.
  - intros ex value C E T. eexists.
    apply (order_value_not_tradable G B a ex value lp sp style st C E T).
  - intros acd dt x A D U L.
    rewrite (order_value_closed_out G B a acd dt x lp sp style st A D U L).
    rewrite (order_closed_out G B a acd dt x lp sp style st A D U L).
    destruct (g_log G); simpl; repeat split; try discriminate; reflexivity.
Qed.

(** C1 at [AAPL], orderable, under bar data that reports nothing as
    tradable: [order_value] raises; and at [OLDCO], closed out ninety-seven
    days ago: no order leaves. *)
Lemma delisting_raises_only_past_the_check_witness :
  (exists msg,
     order_value module_globals Examples.broker (AssetObj Examples.AAPL)
       1000 None None None (Examples.running Examples.closed_market)
     = (Raise (CannotOrderDelistedAsset msg),
        Examples.running Examples.closed_market)) /\
  orders_sent
    (world (snd (order_value module_globals Examples.broker
                   (AssetObj Examples.OLDCO) 1000 None None None
                   (Examples.running Examples.closed_market))))
  = [].
Proof.
  split.
  - exact (proj1 (delisting_raises_only_past_the_check module_globals
                    Examples.broker Examples.AAPL None None None
                    (Examples.running Examples.closed_market))
             Examples.closed_market 1000%Q eq_refl eq_refl eq_refl).
  - exact (proj1 (proj2 (proj2
             (proj2 (delisting_raises_only_past_the_check module_globals
                       Examples.broker Examples.OLDCO None None None
                       (Examples.running Examples.closed_market))
                (86400 * 103)%Z Examples.now 1000%Q eq_refl eq_refl eq_refl
                eq_refl)))).
Defined.

(** C1 as the specification words it fails at [OLDCO], whose auto-close
    date lies before the current day and which the bar data reports as not
    tradable: [order_value] does not raise [CannotOrderDelistedAsset].  As the
    module is written the call ends in the tradability check, on the unbound
    name [log]; with the names bound it returns [None] from the guard that
    follows the check.  Plain [order] ends the same way in both settings. *)
Lemma order_value_on_closed_out_asset :
  auto_close_date Examples.OLDCO = Some (86400 * 103)%Z /\
  (86400 * 103 < normalize_date Examples.now)%Z /\
  current_data_can_trade Examples.closed_market Examples.OLDCO = false /\
  order_value module_globals Examples.broker (AssetObj Examples.OLDCO)
    1000 None None None (Examples.running Examples.closed_market)
  = (Raise (NameError "log"), Examples.running Examples.closed_market) /\
  fst (order_value (Examples.repaired_globals 10) Examples.broker
         (AssetObj Examples.OLDCO) 1000 None None None
         (Examples.running Examples.closed_market))
  = Return None /\
  order module_globals Examples.broker (AssetObj Examples.OLDCO)
    10 None None None (Examples.running Examples.closed_market)
  = (Raise (NameError "log"), Examples.running Examples.closed_market) /\
  fst (order (Examples.repaired_globals 10) Examples.broker
         (AssetObj Examples.OLDCO) 10 None None None
         (Examples.running Examples.closed_market))
  = Return None.
Proof.
  repeat split; reflexivity.
Qed.

End Delisted.

(** ** Names the module reads without binding them *)

Section UnboundNames.
Import Num Model Py Algo AlgoFacts.
Local Open Scope string_scope.

(** On an asset that is orderable and tradable, [order_value] as written
    gets as far as reading [last_price]. *)
Lemma order_value_reads_last_price (B : Backend) (a : Asset) (ex : Executor)
    (value : Q) (lp sp : option Q) (style : option ExecutionStyle)
    (st : State) :
  _can_order_asset module_globals (AssetObj a) st = (Return true, st) ->
  executor (self st) = Some ex ->
  current_data_can_trade ex a = true ->
  order_value module_globals B (AssetObj a) value lp sp style st
  = (Raise (NameError "last_price"), st).
Proof.
  intros C E T. unfold order_value, bind at 1. rewrite C. simpl.
  unfold bind, with_asset, _calculate_order_value_amount, bind, get.
  rewrite E, T. reflexivity.
Qed.

(** A size of zero is an order like another: [order] has no test on the
    amount, and the backend is asked for zero shares. *)
Lemma order_of_zero_reaches_backend (G : Globals) (B : Backend) (a : Asset)
    (st : State) :
  _can_order_asset G (AssetObj a) st = (Return true, st) ->
  orders_sent (world (snd (order G B (AssetObj a) 0 None None None st)))
  = (orders_sent (world st) ++ [(a, 0, MarketOrder)])%list.
Proof.
  intros C.
  rewrite (order_orderable G B a 0 None None None MarketOrder st C
             (convert_defaults st)).
  reflexivity.
Qed.

(** C3 at [AAPL], orderable and tradable, for a value of 1000.  As the
    module is written [order_value] raises [NameError] on [last_price].
    Were the names bound and the price 0.00000001, which is tolerantly zero,
    the size would be 0, and [order_value] would pass it on to [order]: the
    backend is asked for 0 shares and the call returns the id of that order,
    not 0. *)
Theorem order_value_at_a_zero_price :
  order_value module_globals Examples.broker (AssetObj Examples.AAPL)
    1000 None None None (Examples.running Examples.open_market)
  = (Raise (NameError "last_price"), Examples.running Examples.open_market) /\
  tolerant_equals (1 # 100000000) 0 = true /\
  fst (order_value (Examples.repaired_globals (1 # 100000000))
         Examples.broker (AssetObj Examples.AAPL) 1000 None None None
         (Examples.running Examples.open_market))
  = Return (Some "order-1") /\
  orders_sent
    (world (snd (order_value (Examples.repaired_globals (1 # 100000000))
                   Examples.broker (AssetObj Examples.AAPL) 1000
                   None None None
                   (Examples.running Examples.open_market))))
  = [(Examples.AAPL, 0, MarketOrder)].
Proof.
  repeat split; reflexivity.
Qed.

(** With the exception class bound, an unknown calendar raises it, naming
    the two sentinels; as the module is written the name of the class is
    what fails. *)
Lemma unknown_calendar (G : Globals) (func : string)
    (dr tr : option EventRule) (hd : bool) (repr : string) (st : State) :
  fst (schedule_function G func dr tr hd (Some (OtherValue repr)) st)
  = (if g_ScheduleFunctionInvalidCalendar G
     then Raise (ScheduleFunctionInvalidCalendar (OtherValue repr)
                   "[calendars.US_EQUITIES, calendars.US_FUTURES]")
     else Raise (NameError "ScheduleFunctionInvalidCalendar")) /\
  event_manager (self (snd (schedule_function G func dr tr hd
                              (Some (OtherValue repr)) st)))
  = event_manager (self st).
Proof.
  unfold schedule_function.
  cbv [bind get ret raise modify_world modify_self add_event].
  destruct (is_time_rule_instance dr && negb (given tr));
    destruct (g_ScheduleFunctionInvalidCalendar G); split; reflexivity.
Qed.

(** C7 for every calendar argument other than the two sentinels and
    [None]: the call fails, with [NameError] on the name of the exception
    class, and registers nothing. *)
Theorem unknown_calendar_raises_NameError (func : string)
    (dr tr : option EventRule) (hd : bool) (repr : string) (st : State) :
  fst (schedule_function module_globals func dr tr hd
         (Some (OtherValue repr)) st)
  = Raise (NameError "ScheduleFunctionInvalidCalendar") /\
  event_manager (self (snd (schedule_function module_globals func dr tr hd
                              (Some (OtherValue repr)) st)))
  = event_manager (self st).
Proof.
  exact (unknown_calendar module_globals func dr tr hd repr st).
Qed.

(** Construction with a backend that only the global namespace knows gets
    as far as reading [options]. *)
Lemma init_global_only (finder : string -> option PyModule)
    (kwargs : Kwargs) (backend : string) (m : PyModule)
    (ctor : list (string * string) -> Backend) :
  kw_data_frequency kwargs = None ->
  kw_backend kwargs = Some backend ->
  finder ("pylivetrader.backend." ++ backend) = None ->
  finder backend = Some m ->
  mod_Backend m = Some ctor ->
  __init__ module_globals finder kwargs = Raise (NameError "options").
Proof.
  intros F K N1 N2 C. unfold __init__, import_module.
  rewrite F, K. simpl. rewrite N1, N2, C. reflexivity.
Qed.

(** A backend that neither namespace knows: the error names it. *)
Lemma init_unknown_backend (G : Globals)
    (finder : string -> option PyModule) (kwargs : Kwargs)
    (backend : string) :
  kw_data_frequency kwargs = None ->
  kw_backend kwargs = Some backend ->
  finder ("pylivetrader.backend." ++ backend) = None ->
  finder backend = None ->
  __init__ G finder kwargs
  = Raise (RuntimeError
             ("Could not find backend package `" ++ backend ++ "`.")).
Proof.
  intros F K N1 N2. unfold __init__, import_module.
  rewrite F, K. simpl. rewrite N1, N2. reflexivity.
Qed.

(** A first-party backend is taken without the global namespace being
    looked at. *)
Lemma init_first_party (G : Globals) (finder : string -> option PyModule)
    (kwargs : Kwargs) (backend : string) (m : PyModule)
    (ctor : list (string * string) -> Backend) :
  kw_data_frequency kwargs = None ->
  kw_backend kwargs = Some backend ->
  finder ("pylivetrader.backend." ++ backend) = Some m ->
  mod_Backend m = Some ctor ->
  exists a,
    __init__ G finder kwargs
    = Return (ctor (or_default (kw_backend_options kwargs) []), a) /\
    _portfolio_needs_update a = true /\
    _account_needs_update a = true.
Proof.
  intros F K N C. unfold __init__, import_module.
  rewrite F, K. simpl. rewrite N, C. eexists.
  split; [reflexivity|]. split; reflexivity.
Qed.

(** C9 at [mybroker], a package of the global namespace that is no
    first-party backend: construction raises [NameError] on [options], and
    would still fail were [options] bound, [backendmod] then being a backend
    object without a [Backend] attribute.  The first-party [alpaca] is
    constructed, and the unknown [nobroker] is refused by name. *)
Theorem init_with_a_global_backend :
  Examples.site_packages "pylivetrader.backend.mybroker" = None /\
  (exists m, Examples.site_packages "mybroker" = Some m) /\
  __init__ module_globals Examples.site_packages
    (Examples.kwargs_for "mybroker")
  = Raise (NameError "options") /\
  __init__ (Examples.repaired_globals 10) Examples.site_packages
    (Examples.kwargs_for "mybroker")
  = Raise (AttributeError "Backend") /\
  (exists a,
     __init__ module_globals Examples.site_packages
       (Examples.kwargs_for "alpaca")
     = Return (Examples.broker, a)) /\
  __init__ module_globals Examples.site_packages
    (Examples.kwargs_for "nobroker")
  = Raise (RuntimeError "Could not find backend package `nobroker`.").
Proof.
  split; [reflexivity|]. split; [eexists; reflexivity|].
  split; [reflexivity|]. split; [reflexivity|].
  split; [eexists; reflexivity|reflexivity].
Qed.

End UnboundNames.

(** ** The caches stay well formed *)

Section CacheInvariant.
Import Model Py Algo CacheFacts.
Local Open Scope string_scope.

(** A constructed instance has both flags raised. *)
Lemma init_raises_both_flags (G : Globals)
    (finder : string -> option PyModule) (kwargs : Kwargs)
    (b : Backend) (a : Algorithm) :
  __init__ G finder kwargs = Return (b, a) ->
  _portfolio_needs_update a = true /\ _account_needs_update a = true.
Proof.
  unfold __init__.
  repeat match goal with
         | |- context [match ?x with _ => _ end] => destruct x
         | |- context [if ?x then _ else _] => destruct x
         end;
    intros E; inversion E; subst; split; reflexivity.
Qed.

Lemma cache_ok_after_init (G : Globals)
    (finder : string -> option PyModule) (kwargs : Kwargs)
    (b : Backend) (a : Algorithm) :
  __init__ G finder kwargs = Return (b, a) ->
  cache_ok {| self := a; world := untouched |}.
Proof.
  intros E. destruct (init_raises_both_flags G finder kwargs b a E) as [P A].
  split; simpl; intros F; congruence.
Qed.

Lemma cache_ok_on_dt_changed (dt : Datetime) (st : State) :
  cache_ok (snd (on_dt_changed dt st)).
Proof. split; simpl; intros F; discriminate F. Qed.

Lemma cache_ok_portfolio (B : Backend) (st st1 : State)
    (p : Fetched Portfolio) :
  cache_ok st -> portfolio B st = (Return p, st1) -> cache_ok st1.
Proof.
  intros H R.
  destruct (_portfolio_needs_update (self st)) eqn:F.
  - rewrite (portfolio_stale B st F) in R. inversion R. subst.
    destruct H as [_ Ha]. split; simpl; [eauto | exact Ha].
  - destruct (proj1 H F) as [q Q].
    rewrite (portfolio_cached B st q F Q) in R. inversion R. subst.
    exact H.
Qed.

Lemma cache_ok_account (B : Backend) (st st1 : State)
    (p : Fetched Account) :
  cache_ok st -> account B st = (Return p, st1) -> cache_ok st1.
Proof.
  intros H R.
  destruct (_account_needs_update (self st)) eqn:F.
  - rewrite (account_stale B st F) in R. inversion R. subst.
    destruct H as [Hp _]. split; simpl; [exact Hp | eauto].
  - destruct (proj2 H F) as [q Q].
    rewrite (account_cached B st q F Q) in R. inversion R. subst.
    exact H.
Qed.

End CacheInvariant.

(** ** What a call leaves untouched *)

Module FrameFacts.
Import Num Model Py Algo AlgoFacts CacheFacts.
Local Open Scope string_scope.

(** Splits on the tests of the tradability check. *)
Ltac check_cases G st :=
  repeat match goal with
         | |- context [auto_close_date ?a] => destruct (auto_close_date a)
         | |- context [datetime (self st)] => destruct (datetime (self st))
         | |- context [tzinfo_is_utc ?d] => destruct (tzinfo_is_utc d)
         | |- context [Z.ltb ?x ?y] => destruct (Z.ltb x y)
         | |- context [g_log G] => destruct (g_log G)
         end.

(** The state a portfolio read leaves, returned or raised. *)
Lemma portfolio_state (B : Backend) (st : State) :
  snd (portfolio B st)
  = if _portfolio_needs_update (self st)
    then {| self := set_portfolio_needs_update false
                      (set_portfolio
                         {| fetch_no := portfolio_fetches (world st);
                            value := Backend_portfolio B
                                       (portfolio_fetches (world st)) |}
                         (self st));
            world := count_portfolio_fetch (world st) |}
    else st.
Proof.
  destruct (_portfolio_needs_update (self st)) eqn:F.
  - rewrite (portfolio_stale B st F). reflexivity.
  - unfold portfolio, bind, get, ret, raise. rewrite F. simpl.
    destruct (_portfolio (self st)); reflexivity.
Qed.

Lemma account_state (B : Backend) (st : State) :
  snd (account B st)
  = if _account_needs_update (self st)
    then {| self := set_account_needs_update false
                      (set_account
                         {| fetch_no := account_fetches (world st);
                            value := Backend_account B
                                       (account_fetches (world st)) |}
                         (self st));
            world := count_account_fetch (world st) |}
    else st.
Proof.
  destruct (_account_needs_update (self st)) eqn:F.
  - rewrite (account_stale B st F). reflexivity.
  - unfold account, bind, get, ret, raise. rewrite F. simpl.
    destruct (_account (self st)); reflexivity.
Qed.

(** A portfolio read leaves the executor, the logger and the events as
    they are. *)
Lemma portfolio_frame (B : Backend) (st st1 : State)
    (p : Fetched Portfolio) :
  portfolio B st = (Return p, st1) ->
  executor (self st1) = executor (self st) /\
  logger (self st1) = logger (self st) /\
  event_manager (self st1) = event_manager (self st) /\
  log_output (world st1) = log_output (world st).
Proof.
  intros R. assert (E : st1 = snd (portfolio B st)) by (rewrite R; reflexivity).
  rewrite portfolio_state in E. subst st1.
  destruct (_portfolio_needs_update (self st)); repeat split; reflexivity.
Qed.

(** The tradability check leaves the instance as it is and makes no
    backend access. *)
Lemma can_order_frame (G : Globals) (o : PyObject) (st : State) :
  self (snd (_can_order_asset G o st)) = self st /\
  portfolio_fetches (world (snd (_can_order_asset G o st)))
  = portfolio_fetches (world st) /\
  account_fetches (world (snd (_can_order_asset G o st)))
  = account_fetches (world st) /\
  orders_sent (world (snd (_can_order_asset G o st)))
  = orders_sent (world st).
Proof.
  destruct o as [a | r]; [|repeat split; reflexivity].
  unfold _can_order_asset.
  cbv [bind get_datetime get log_warn ret raise modify_world].
  check_cases G st; repeat split; reflexivity.
Qed.

(** [order] leaves the instance as it is and makes no portfolio or account
    access, however it ends. *)
Lemma order_frame (G : Globals) (B : Backend) (o : PyObject) (amount : Q)
    (lp sp : option Q) (style : option ExecutionStyle) (st : State) :
  self (snd (order G B o amount lp sp style st)) = self st /\
  portfolio_fetches (world (snd (order G B o amount lp sp style st)))
  = portfolio_fetches (world st) /\
  account_fetches (world (snd (order G B o amount lp sp style st)))
  = account_fetches (world st).
Proof.
  destruct o as [a | r]; [|repeat split; reflexivity].
  unfold order, _can_order_asset, _calculate_order, backend_order,
    __convert_order_params_for_blotter, with_asset.
  cbv [bind get_datetime get log_warn ret raise modify_world].
  check_cases G st; simpl;
    destruct style; destruct lp, sp; simpl;
    repeat match goal with
           | |- context [if ?x then _ else _] => destruct x; simpl
           end;
    repeat match goal with
           | |- context [Backend_order B ?a ?n ?s] =>
               destruct (Backend_order B a n s); simpl
           end;
    repeat split; reflexivity.
Qed.

(** [schedule_function] touches the event sequence and the warnings only. *)
Lemma schedule_frame (G : Globals) (func : string)
    (dr tr : option EventRule) (hd : bool) (cal : option Sentinel)
    (st : State) :
  _portfolio_needs_update
    (self (snd (schedule_function G func dr tr hd cal st)))
  = _portfolio_needs_update (self st) /\
  _account_needs_update
    (self (snd (schedule_function G func dr tr hd cal st)))
  = _account_needs_update (self st) /\
  data_frequency (self (snd (schedule_function G func dr tr hd cal st)))
  = data_frequency (self st) /\
  trading_calendar (self (snd (schedule_function G func dr tr hd cal st)))
  = trading_calendar (self st) /\
  portfolio_fetches (world (snd (schedule_function G func dr tr hd cal st)))
  = portfolio_fetches (world st) /\
  account_fetches (world (snd (schedule_function G func dr tr hd cal st)))
  = account_fetches (world st) /\
  orders_sent (world (snd (schedule_function G func dr tr hd cal st)))
  = orders_sent (world st).
Proof.
  unfold schedule_function.
  cbv [bind get ret raise modify_world modify_self add_event].
  destruct (is_time_rule_instance dr && negb (given tr));
    destruct cal as [[| | r] |];
    destruct (g_ScheduleFunctionInvalidCalendar G);
    repeat split; reflexivity.
Qed.

End FrameFacts.

(** ** Further properties of the order entry points *)

Section OrderEntryPoints.
Import Num Model Py Algo NumFacts AlgoFacts CacheFacts FrameFacts.
Local Open Scope string_scope.

(** X1: every order entry point refuses an argument that is not an
    [Asset] with [UnsupportedOrderParameters], before anything else happens:
    the state is the one before the call. *)
Theorem foreign_object_is_refused (G : Globals) (B : Backend)
    (repr : string) (x : Q) (lp sp : option Q)
    (style : option ExecutionStyle) (st : State) :
  exists msg,
    order G B (OtherObj repr) x lp sp style st
    = (Raise (UnsupportedOrderParameters msg), st) /\
    order_value G B (OtherObj repr) x lp sp style st
    = (Raise (UnsupportedOrderParameters msg), st) /\
    order_percent G B (OtherObj repr) x lp sp style st
    = (Raise (UnsupportedOrderParameters msg), st) /\
    order_target G B (OtherObj repr) x lp sp style st
    = (Raise (UnsupportedOrderParameters msg), st) /\
    order_target_value G B (OtherObj repr) x lp sp style st
    = (Raise (UnsupportedOrderParameters msg), st) /\
    order_target_percent G B (OtherObj repr) x lp sp style st
    = (Raise (UnsupportedOrderParameters msg), st).
Proof. eexists. repeat split; reflexivity. Qed.

(** X2: the clock set by [on_dt_changed] is the one [get_datetime] returns,
    provided it is in UTC; a clock in another zone fails the assertion of
    [get_datetime]; and setting the clock leaves the events, the data
    frequency and the surroundings as they are. *)
Theorem clock_round_trip (dt : Datetime) (st : State) :
  (tzinfo_is_utc dt = true ->
   get_datetime (snd (on_dt_changed dt st))
   = (Return dt, snd (on_dt_changed dt st))) /\
  (tzinfo_is_utc dt = false ->
   exists msg,
     get_datetime (snd (on_dt_changed dt st))
     = (Raise (AssertionError msg), snd (on_dt_changed dt st))) /\
  event_manager (self (snd (on_dt_changed dt st))) = event_manager (self st) /\
  data_frequency (self (snd (on_dt_changed dt st)))
  = data_frequency (self st) /\
  world (snd (on_dt_changed dt st)) = world st.
Proof.
  split; [|split].
  - intros U. unfold get_datetime, bind, get. simpl. rewrite U. reflexivity.
  - intros U. eexists. unfold get_datetime, bind, get. simpl. rewrite U.
    reflexivity.
  - repeat split; reflexivity.
Qed.

(** X2 at 09:30 UTC on day 200. *)
Lemma clock_round_trip_witness :
  tzinfo_is_utc Examples.now = true /\
  fst (get_datetime
         (snd (on_dt_changed Examples.now
                 (Examples.running Examples.open_market))))
  = Return Examples.now.
Proof.
  split; [reflexivity|].
  rewrite (proj1 (clock_round_trip Examples.now
                    (Examples.running Examples.open_market)) eq_refl).
  reflexivity.
Defined.

(** X3: [order] with an explicit style and a positional price fails the
    assertion of the style helper before the backend is asked: nothing is
    sent and the state is the one before the call. *)
Theorem style_with_a_price_is_refused (G : Globals) (B : Backend)
    (a : Asset) (amount : Q) (lp sp : option Q) (s : ExecutionStyle)
    (st : State) :
  _can_order_asset G (AssetObj a) st = (Return true, st) ->
  lp <> None \/ sp <> None ->
  exists msg,
    order G B (AssetObj a) amount lp sp (Some s) st
    = (Raise (AssertionError msg), st).
Proof.
  intros C H. exists no_message. unfold order, bind at 1. rewrite C. simpl.
  unfold _calculate_order, bind, __convert_order_params_for_blotter.
  destruct H as [H | H]; destruct lp, sp; try contradiction; reflexivity.
Qed.

(** X3 at a limit order style passed along with a stop price. *)
Lemma style_with_a_price_is_refused_witness :
  exists msg,
    order module_globals Examples.broker (AssetObj Examples.AAPL) 10
      None (Some (140 # 1)) (Some (LimitOrder (150 # 1)))
      (Examples.running Examples.open_market)
    = (Raise (AssertionError msg), Examples.running Examples.open_market).
Proof.
  exact (style_with_a_price_is_refused module_globals Examples.broker
           Examples.AAPL 10%Q None (Some (140 # 1)) (LimitOrder (150 # 1))
           (Examples.running Examples.open_market) eq_refl
           (or_intror (fun E => eq_ind (Some (140 # 1))
                                  (fun o => match o with
                                            | Some _ => True
                                            | None => False
                                            end) I None E))).
Defined.

(** X4: on an asset that passes the check and that the bar data reports
    as not tradable, [order_percent], [order_target_value] and
    [order_target_percent] raise [CannotOrderDelistedAsset] like
    [order_value], and send nothing to the backend.  The two percent calls
    have read the portfolio by then; [order_target_value] has not. *)
Theorem sizing_refuses_untradable_assets (G : Globals) (B : Backend)
    (a : Asset) (ex : Executor) (x : Q) (lp sp : option Q)
    (style : option ExecutionStyle) (st st1 : State)
    (p : Fetched Portfolio) :
  _can_order_asset G (AssetObj a) st = (Return true, st) ->
  executor (self st) = Some ex ->
  current_data_can_trade ex a = false ->
  portfolio B st = (Return p, st1) ->
  exists msg,
    order_target_value G B (AssetObj a) x lp sp style st
    = (Raise (CannotOrderDelistedAsset msg), st) /\
    order_percent G B (AssetObj a) x lp sp style st
    = (Raise (CannotOrderDelistedAsset msg), st1) /\
    order_target_percent G B (AssetObj a) x lp sp style st
    = (Raise (CannotOrderDelistedAsset msg), st1) /\
    orders_sent (world st1) = orders_sent (world st).
Proof.
  intros C E T R.
  destruct (portfolio_frame B st st1 p R) as (E1 & _).
  destruct (portfolio_returns B st st1 p R) as (_ & _ & _ & O & _).
  rewrite <- E1 in E.
  eexists. split; [|split; [|split; [|exact O]]].
  - unfold order_target_value, bind at 1. rewrite C. simpl.
    unfold bind, with_asset, _calculate_order_value_amount, bind, get.
    rewrite <- E1, E, T. reflexivity.
  - unfold order_percent, bind at 1. rewrite C. simpl.
    unfold bind at 1, with_asset, _calculate_order_percent_amount,
      bind at 1. rewrite R.
    unfold _calculate_order_value_amount, bind, get. rewrite E, T.
    reflexivity.
  - unfold order_target_percent, bind at 1. rewrite C. simpl.
    unfold bind at 1, with_asset, _calculate_order_target_percent_amount,
      bind at 1, _calculate_order_percent_amount, bind at 1. rewrite R.
    unfold _calculate_order_value_amount, bind, get. rewrite E, T.
    reflexivity.
Qed.

(** X4 at [AAPL] under bar data that reports nothing as tradable. *)
Lemma sizing_refuses_untradable_assets_witness :
  exists msg st1,
    order_percent module_globals Examples.broker (AssetObj Examples.AAPL)
      (1 # 2) None None None (Examples.running Examples.closed_market)
    = (Raise (CannotOrderDelistedAsset msg), st1) /\
    portfolio_fetches (world st1) = 1%nat /\
    orders_sent (world st1) = [].
Proof.
  destruct (sizing_refuses_untradable_assets module_globals Examples.broker
              Examples.AAPL Examples.closed_market (1 # 2) None None None
              (Examples.running Examples.closed_market) _ _
              eq_refl eq_refl eq_refl
              (portfolio_stale Examples.broker
                 (Examples.running Examples.closed_market) eq_refl))
    as (msg & _ & P & _ & O).
  exists msg. eexists. split; [exact P|]. split; [reflexivity|exact O].
Defined.

(** X5: placing an order does not refresh the portfolio: whatever [order]
    is called with and however it ends, the next read of [portfolio] returns
    the snapshot cached before the call, without asking the backend. *)
Theorem orders_do_not_refresh_the_portfolio (G : Globals) (B : Backend)
    (o : PyObject) (amount : Q) (lp sp : option Q)
    (style : option ExecutionStyle) (st : State) (p : Fetched Portfolio) :
  _portfolio_needs_update (self st) = false ->
  _portfolio (self st) = Some p ->
  portfolio B (snd (order G B o amount lp sp style st))
  = (Return p, snd (order G B o amount lp sp style st)).
Proof.
  intros F P.
  destruct (order_frame G B o amount lp sp style st) as (S & _).
  apply portfolio_cached; rewrite S; assumption.
Qed.

(** X5 after a first read that found 100 shares: the order for 50 more
    goes out, and the portfolio still shows the first snapshot. *)
Lemma orders_do_not_refresh_the_portfolio_witness :
  fst (portfolio Examples.broker
         (snd (order module_globals Examples.broker
                 (AssetObj Examples.AAPL) 50 None None None
                 (snd (portfolio Examples.broker
                         (Examples.running Examples.open_market))))))
  = Return {| fetch_no := 0; value := Examples.holding_100 |}.
Proof.
  rewrite (orders_do_not_refresh_the_portfolio module_globals
             Examples.broker (AssetObj Examples.AAPL) 50 None None None
             (snd (portfolio Examples.broker
                     (Examples.running Examples.open_market)))
             {| fetch_no := 0; value := Examples.holding_100 |}
             eq_refl eq_refl).
  reflexivity.
Defined.

(** X6: a target equal to the position held is not skipped: [order_target]
    sends the backend an order for zero shares. *)
Theorem target_already_held_sends_zero (G : Globals) (B : Backend)
    (a : Asset) (target : Q) (st st1 : State) (p : Fetched Portfolio) :
  portfolio B st = (Return p, st1) ->
  _can_order_asset G (AssetObj a) st = (Return true, st) ->
  (target == inject_Z (held (value p) a))%Q ->
  orders_sent
    (world (snd (order_target G B (AssetObj a) target None None None st)))
  = (orders_sent (world st) ++ [(a, 0, MarketOrder)])%list.
Proof.
  intros R C E.
  rewrite (order_target_orderable G B a target st st1 p R C).
  assert (Z0 : (target - inject_Z (held (value p) a) == inject_Z 0)%Q)
    by (rewrite E; unfold inject_Z; ring).
  rewrite (round_order_comp _ _ Z0), round_order_inject_Z. reflexivity.
Qed.

(** X6 at a target of 100 shares of [AAPL] with 100 shares held. *)
Lemma target_already_held_sends_zero_witness :
  orders_sent
    (world (snd (order_target module_globals Examples.broker
                   (AssetObj Examples.AAPL) 100 None None None
                   (Examples.running Examples.open_market))))
  = [(Examples.AAPL, 0, MarketOrder)].
Proof.
  exact (target_already_held_sends_zero module_globals Examples.broker
           Examples.AAPL 100 (Examples.running Examples.open_market) _ _
           (portfolio_stale Examples.broker
              (Examples.running Examples.open_market) eq_refl)
           eq_refl eq_refl).
Defined.

End OrderEntryPoints.

(** ** Sequences of calls *)

Section CallSequences.
Import Model Py Algo CacheFacts FrameFacts Calls.
Local Open Scope string_scope.

(** One call: the portfolio accesses made so far, plus the one a raised
    flag still owes, grow by at most one, and only at a clock advance. *)
Lemma portfolio_budget_step (G : Globals) (B : Backend) (c : Call)
    (st : State) :
  (portfolio_fetches (world (after G B c st))
   + Nat.b2n (_portfolio_needs_update (self (after G B c st)))
   <= portfolio_fetches (world st)
      + Nat.b2n (_portfolio_needs_update (self st))
      + Nat.b2n (is_tick c))%nat.
Proof.
  destruct c as [| | dt | o x lp sp style | f d t h cal]; simpl.
  - rewrite portfolio_state.
    destruct (_portfolio_needs_update (self st)) eqn:F; simpl;
      [|rewrite F; simpl]; lia.
  - rewrite account_state.
    destruct (_account_needs_update (self st)); simpl; lia.
  - destruct (_portfolio_needs_update (self st)); simpl; lia.
  - destruct (order_frame G B o x lp sp style st) as (S & P & _).
    rewrite S, P. lia.
  - destruct (schedule_frame G f d t h cal st) as (F & _ & _ & _ & P & _).
    rewrite F, P. lia.
Qed.

Lemma account_budget_step (G : Globals) (B : Backend) (c : Call)
    (st : State) :
  (account_fetches (world (after G B c st))
   + Nat.b2n (_account_needs_update (self (after G B c st)))
   <= account_fetches (world st)
      + Nat.b2n (_account_needs_update (self st))
      + Nat.b2n (is_tick c))%nat.
Proof.
  destruct c as [| | dt | o x lp sp style | f d t h cal]; simpl.
  - rewrite portfolio_state.
    destruct (_portfolio_needs_update (self st)); simpl; lia.
  - rewrite account_state.
    destruct (_account_needs_update (self st)) eqn:F; simpl;
      [|rewrite F; simpl]; lia.
  - destruct (_account_needs_update (self st)); simpl; lia.
  - destruct (order_frame G B o x lp sp style st) as (S & _ & A).
    rewrite S, A. lia.
  - destruct (schedule_frame G f d t h cal st)
      as (_ & F & _ & _ & _ & A & _).
    rewrite F, A. lia.
Qed.

Lemma ticks_cons (c : Call) (cs : list Call) :
  ticks (c :: cs) = (Nat.b2n (is_tick c) + ticks cs)%nat.
Proof. unfold ticks. simpl. destruct (is_tick c); reflexivity. Qed.

(** X7: over any sequence of portfolio reads, account reads, clock
    advances, orders and scheduling calls, whether they return or raise, the
    backend is asked for the portfolio at most once per clock advance, plus
    once if the cache was stale at the start; the same holds of the account. *)
Theorem one_fetch_per_clock_advance (G : Globals) (B : Backend)
    (cs : list Call) (st : State) :
  (portfolio_fetches (world (after_all G B cs st))
   <= portfolio_fetches (world st)
      + Nat.b2n (_portfolio_needs_update (self st)) + ticks cs)%nat /\
  (account_fetches (world (after_all G B cs st))
   <= account_fetches (world st)
      + Nat.b2n (_account_needs_update (self st)) + ticks cs)%nat.
Proof.
  assert (H : forall cs st,
    (portfolio_fetches (world (after_all G B cs st))
     + Nat.b2n (_portfolio_needs_update (self (after_all G B cs st)))
     <= portfolio_fetches (world st)
        + Nat.b2n (_portfolio_needs_update (self st)) + ticks cs)%nat /\
    (account_fetches (world (after_all G B cs st))
     + Nat.b2n (_account_needs_update (self (after_all G B cs st)))
     <= account_fetches (world st)
        + Nat.b2n (_account_needs_update (self st)) + ticks cs)%nat).
  { clear cs st. induction cs as [| c cs IH]; intros st.
    - unfold ticks. simpl. lia.
    - rewrite ticks_cons.
      change (after_all G B (c :: cs) st)
        with (after_all G B cs (after G B c st)).
      destruct (IH (after G B c st)) as [IP IA].
      pose proof (portfolio_budget_step G B c st).
      pose proof (account_budget_step G B c st).
      lia. }
  destruct (H cs st). lia.
Qed.

(** What one call does to the event sequence. *)
Lemma events_step (G : Globals) (B : Backend) (c : Call) (st : State) :
  event_manager (self (after G B c st))
  = (event_manager (self st)
     ++ match registers (self st) c with Some e => [e] | None => [] end)%list
  /\ data_frequency (self (after G B c st)) = data_frequency (self st)
  /\ trading_calendar (self (after G B c st)) = trading_calendar (self st).
Proof.
  destruct c as [| | dt | o x lp sp style | f d t h cal]; simpl.
  - rewrite portfolio_state, app_nil_r.
    destruct (_portfolio_needs_update (self st)); repeat split; reflexivity.
  - rewrite account_state, app_nil_r.
    destruct (_account_needs_update (self st)); repeat split; reflexivity.
  - rewrite app_nil_r. repeat split; reflexivity.
  - destruct (order_frame G B o x lp sp style st) as (S & _).
    rewrite S, app_nil_r. repeat split; reflexivity.
  - unfold schedule_function.
    cbv [bind get ret raise modify_world modify_self add_event].
    destruct (is_time_rule_instance d && negb (given t));
      destruct cal as [[| | r] |];
      destruct (g_ScheduleFunctionInvalidCalendar G); simpl;
      rewrite ?app_nil_r; repeat split; reflexivity.
Qed.

(** The event a call registers depends on the data frequency and on the
    calendar of the instance only. *)
Lemma registers_ext (a a' : Algorithm) (c : Call) :
  data_frequency a = data_frequency a' ->
  trading_calendar a = trading_calendar a' ->
  registers a c = registers a' c.
Proof.
  intros D T. destruct c as [| | | |f d t h cal]; try reflexivity.
  unfold registers, calendar_for. rewrite D, T. reflexivity.
Qed.

(** X8: the events a sequence of calls registers are added after the
    events already there, in the order of the calls; in particular whatever
    was first (the per-bar handler, after construction) stays first.  Calls
    other than [schedule_function] with an accepted calendar add nothing. *)
Theorem events_keep_registration_order (G : Globals) (B : Backend)
    (cs : list Call) (st : State) :
  event_manager (self (after_all G B cs st))
  = (event_manager (self st) ++ omap (registers (self st)) cs)%list.
Proof.
  assert (H : forall cs (a : Algorithm) st,
    data_frequency a = data_frequency (self st) ->
    trading_calendar a = trading_calendar (self st) ->
    event_manager (self (after_all G B cs st))
    = (event_manager (self st) ++ omap (registers a) cs)%list).
  { clear cs st. induction cs as [| c cs IH]; intros a st D T.
    - simpl. rewrite app_nil_r. reflexivity.
    - change (after_all G B (c :: cs) st)
        with (after_all G B cs (after G B c st)).
      destruct (events_step G B c st) as (E & D' & T').
      rewrite (IH a) by congruence.
      rewrite E, <- app_assoc. f_equal.
      rewrite (registers_ext (self st) a c) by congruence.
      simpl. destruct (registers a c); reflexivity. }
  apply H; reflexivity.
Qed.

(** X9: [schedule_function] warns exactly when its second positional
    argument is an [AfterOpen] or [BeforeClose] rule and no time rule is
    given, and goes on all the same: with an accepted calendar the call
    returns, the rule passed in the date position being registered as the
    date rule. *)
Theorem time_rule_in_date_position_warns (G : Globals) (func : string)
    (dr tr : option EventRule) (hd : bool) (cal : option Sentinel)
    (st : State) :
  exists msg,
    (is_time_rule_instance dr = true -> tr = None ->
     warnings_issued (world (snd (schedule_function G func dr tr hd cal st)))
     = (warnings_issued (world st) ++ [msg])%list /\
     (accepted cal ->
      exists e st',
        schedule_function G func dr tr hd cal st = (Return tt, st') /\
        event_manager (self st') = (event_manager (self st) ++ [e])%list /\
        exists t c h,
          rule e = Composite (or_else dr every_day) t c h /\
          dr = Some (or_else dr every_day))) /\
    (is_time_rule_instance dr = false \/ tr <> None ->
     warnings_issued (world (snd (schedule_function G func dr tr hd cal st)))
     = warnings_issued (world st)).
Proof.
  eexists. split.
  - intros I T. subst tr. split.
    + unfold schedule_function.
      cbv [bind get ret raise modify_world modify_self add_event].
      rewrite I. simpl.
      destruct cal as [[| | r] |];
        destruct (g_ScheduleFunctionInvalidCalendar G); reflexivity.
    + intros A.
      destruct (schedule_function_accepted G func dr None hd cal st A)
        as (st' & R & E).
      eexists. exists st'. split; [exact R|]. split; [exact E|].
      simpl. eexists. eexists. eexists. split; [reflexivity|].
      destruct dr as [[]|]; try discriminate I; reflexivity.
  - intros H. unfold schedule_function.
    cbv [bind get ret raise modify_world modify_self add_event].
    assert (C : is_time_rule_instance dr && negb (given tr) = false).
    { destruct H as [H | H]; [rewrite H; reflexivity|].
      destruct tr; [|contradiction]. simpl. apply andb_false_r. }
    rewrite C. simpl.
    destruct cal as [[| | r] |];
      destruct (g_ScheduleFunctionInvalidCalendar G); reflexivity.
Qed.

(** X9 at [schedule_function(rebalance, AfterOpen(30))]. *)
Lemma time_rule_in_date_position_warns_witness :
  length
    (warnings_issued
       (world (snd (schedule_function module_globals "rebalance"
                      (Some (AfterOpen 30)) None true None
                      (Examples.running Examples.open_market)))))
  = 1%nat.
Proof.
  destruct (time_rule_in_date_position_warns module_globals "rebalance"
              (Some (AfterOpen 30)) None true None
              (Examples.running Examples.open_market)) as (msg & W & _).
  rewrite (proj1 (W eq_refl eq_refl)). reflexivity.
Defined.

End CallSequences.

(** ** Further properties of construction *)

Section Construction.
Import Model Py Algo CacheFacts.
Local Open Scope string_scope.

(** X10: a data frequency other than "minute" and "daily" fails the
    assertion of [__init__] whatever backend is asked for, known or not:
    the frequency is checked before any backend is looked up. *)
Theorem unknown_data_frequency_is_refused (G : Globals)
    (finder : string -> option PyModule) (kwargs : Kwargs) (f : string) :
  kw_data_frequency kwargs = Some f ->
  f <> "minute" -> f <> "daily" ->
  exists msg, __init__ G finder kwargs = Raise (AssertionError msg).
Proof.
  intros K M D. exists no_message. unfold __init__. rewrite K. simpl.
  apply String.eqb_neq in M. apply String.eqb_neq in D. rewrite M, D.
  reflexivity.
Qed.

(** X10 at an hourly frequency with the first-party backend. *)
Lemma unknown_data_frequency_is_refused_witness :
  exists msg,
    __init__ module_globals Examples.site_packages
      {| kw_data_frequency := Some "hourly";
         kw_backend := Some "alpaca";
         kw_backend_options := None;
         kw_trading_calendar := None |}
    = Raise (AssertionError msg).
Proof.
  apply (unknown_data_frequency_is_refused module_globals
           Examples.site_packages
           {| kw_data_frequency := Some "hourly";
              kw_backend := Some "alpaca";
              kw_backend_options := None;
              kw_trading_calendar := None |}
           "hourly" eq_refl);
    intros E; discriminate E.
Defined.

(** X11: what a successful construction leaves: the data frequency asked
    for, "minute" by default, and one of the two known ones; the calendar
    asked for, NYSE by default; the per-bar handler as the only event; both
    caches stale and empty; no clock and no executor yet.  The first read of
    the portfolio therefore asks the backend, and the clock cannot be read
    before the executor has set it. *)
Theorem construction_postcondition (G : Globals)
    (finder : string -> option PyModule) (kwargs : Kwargs)
    (b : Backend) (a : Algorithm) :
  __init__ G finder kwargs = Return (b, a) ->
  data_frequency a = or_default (kw_data_frequency kwargs) "minute" /\
  (data_frequency a = "minute" \/ data_frequency a = "daily") /\
  trading_calendar a
  = or_default (kw_trading_calendar kwargs) (get_calendar "NYSE") /\
  event_manager a = [{| rule := Always; callback := "handle_data" |}] /\
  _portfolio_needs_update a = true /\ _account_needs_update a = true /\
  _portfolio a = None /\ _account a = None /\
  executor a = None /\
  fst (portfolio b {| self := a; world := untouched |})
  = Return {| fetch_no := 0; value := Backend_portfolio b 0 |} /\
  fst (get_datetime {| self := a; world := untouched |})
  = Raise (AttributeError "datetime").
Proof.
  unfold __init__.
  destruct (String.eqb (or_default (kw_data_frequency kwargs) "minute")
              "minute") eqn:M;
    destruct (String.eqb (or_default (kw_data_frequency kwargs) "minute")
                "daily") eqn:D; simpl; try discriminate;
    try apply String.eqb_eq in M; try apply String.eqb_eq in D;
    repeat match goal with
           | |- context [match ?x with _ => _ end] => destruct x
           end;
    intros E; inversion E; subst; simpl;
    repeat split; auto.
Qed.

(** X11 at the first-party backend with every option left out. *)
Lemma construction_postcondition_witness :
  exists a,
    __init__ module_globals Examples.site_packages
      (Examples.kwargs_for "alpaca") = Return (Examples.broker, a) /\
    data_frequency a = "minute" /\
    trading_calendar a = get_calendar "NYSE".
Proof.
  eexists. split; [reflexivity|].
  destruct (construction_postcondition module_globals
              Examples.site_packages (Examples.kwargs_for "alpaca")
              Examples.broker _ eq_refl) as (F & _ & T & _).
  split; [exact F | exact T].
Defined.



End Construction.

(** ** Further properties of rounding *)

Section Rounding.
Import Num NumFacts.

Lemma near_opp (a : Q) (n : Z) : near a n -> near (- a) (- n).
Proof.
  unfold near, default_epsilon. intros H.
  apply Qabs_Qle_condition in H. destruct H as [Hlo Hhi].
  apply Qabs_Qle_condition. rewrite inject_Z_opp. split; lra.
Qed.

(** Either an amount is near its rounding, or it is near no whole
    number. *)
Lemma near_or_far (a : Q) :
  near a (py_round a) \/ (forall n, ~ near a n).
Proof.
  destruct (Qle_bool (Qabs (a - inject_Z (py_round a))) default_epsilon)
    eqn:E.
  - left. apply Qle_bool_iff, E.
  - right. intros n H.
    assert (N : near a (py_round a))
      by (rewrite (py_round_near a n H); exact H).
    apply Qle_bool_iff in N. unfold near in N. congruence.
Qed.

Lemma py_int_opp (a : Q) : py_int (- a) = (- py_int a)%Z.
Proof.
  destruct a as [p q]. unfold py_int. simpl. apply Z.quot_opp_l. discriminate.
Qed.

(** X13: [round_order] treats buys and sells alike: the rounding of the
    opposite amount is the opposite of the rounding. *)
Theorem round_order_is_odd (a : Q) :
  round_order (- a) = (- round_order a)%Z.
Proof.
  destruct (near_or_far a) as [N | F].
  - rewrite (round_order_near a _ N).
    apply round_order_near, near_opp, N.
  - rewrite (round_order_far a F), <- py_int_opp.
    apply round_order_far. intros n H.
    apply (F (- n)%Z).
    assert (E : (a == - - a)%Q) by ring.
    unfold near. rewrite E. apply near_opp, H.
Qed.

(** X14: [round_order] never turns a buy into a sell or a sell into a buy,
    and never moves an amount by a whole share or more. *)
Theorem round_order_stays_close (a : Q) :
  ((0 <= a)%Q -> (0 <= round_order a)%Z) /\
  ((a <= 0)%Q -> (round_order a <= 0)%Z) /\
  (Qabs (inject_Z (round_order a) - a) < 1)%Q.
Proof.
  destruct (near_or_far a) as [N | F].
  - rewrite (round_order_near a _ N).
    unfold near, default_epsilon in N.
    apply Qabs_Qle_condition in N. destruct N as [Hlo Hhi].
    split; [|split].
    + intros P.
      assert (L : (inject_Z (-1) < inject_Z (py_round a))%Q)
        by (change (inject_Z (-1)) with (- (1))%Q; lra).
      rewrite <- Zlt_Qlt in L. lia.
    + intros P.
      assert (L : (inject_Z (py_round a) < inject_Z 1)%Q)
        by (change (inject_Z 1) with 1%Q; lra).
      rewrite <- Zlt_Qlt in L. lia.
    + apply Qabs_case; intros; lra.
  - rewrite (round_order_far a F).
    destruct (py_int_truncates a) as [Tp Tn].
    split; [|split].
    + intros P. destruct (Tp P) as [Lo Hi].
      assert (L : (inject_Z (-1) < inject_Z (py_int a))%Q)
        by (change (inject_Z (-1)) with (- (1))%Q; lra).
      rewrite <- Zlt_Qlt in L. lia.
    + intros P. destruct (Tn P) as [Lo Hi].
      assert (L : (inject_Z (py_int a) < inject_Z 1)%Q)
        by (change (inject_Z 1) with 1%Q; lra).
      rewrite <- Zlt_Qlt in L. lia.
    + destruct (Qlt_le_dec a 0) as [L | L].
      * destruct (Tn (Qlt_le_weak _ _ L)). apply Qabs_case; intros; lra.
      * destruct (Tp L). apply Qabs_case; intros; lra.
Qed.

(** X14 at an order for 5.5 shares. *)
Lemma round_order_stays_close_witness :
  (0 <= 11 # 2)%Q /\ (0 <= round_order (11 # 2))%Z.
Proof.
  assert (P : (0 <= 11 # 2)%Q) by (unfold Qle; simpl; lia).
  split; [exact P|].
  exact (proj1 (round_order_stays_close (11 # 2)) P).
Defined.

End Rounding.

(** ** The order book *)

Section OrderBookFacts.
Import Model OrderBook.
Context {ApiOrder : Type} (to_api_obj : BookOrder -> ApiOrder).

(** An asset is among the open assets exactly when the book has an open
    order for it. *)
Lemma elem_of_open_assets (orders : Book) (s : Z) :
  s ∈ open_assets orders <->
  exists id o, In (id, o) orders /\ bo_open o = true /\ sid (bo_asset o) = s.
Proof.
  unfold open_assets.
  rewrite elem_of_list_to_set, list_elem_of_In, in_map_iff. split.
  - intros ([id o] & E & H). apply filter_In in H. destruct H as [H O].
    exists id, o. auto.
  - intros (id & o & H & O & E). exists (id, o). split; [exact E|].
    apply filter_In. auto.
Qed.

(** The orders listed for an asset are its open orders in the book. *)
Lemma in_open_orders_of (orders : Book) (s : Z) (x : ApiOrder) :
  In x (open_orders_of to_api_obj orders s) <->
  exists id o, In (id, o) orders /\ bo_open o = true /\
               sid (bo_asset o) = s /\ to_api_obj o = x.
Proof.
  unfold open_orders_of. rewrite in_map_iff. split.
  - intros ([id o] & E & H). apply filter_In in H. destruct H as [H C].
    apply andb_true_iff in C. destruct C as [S O]. apply Z.eqb_eq in S.
    exists id, o. auto.
  - intros (id & o & H & O & S & E). exists (id, o). split; [exact E|].
    apply filter_In. split; [exact H|]. simpl.
    apply andb_true_iff. split; [apply Z.eqb_eq, S | exact O].
Qed.

Lemma lookup_open_orders (arg : option PyObject) (orders : Book) (s : Z)
    (l : list ApiOrder) :
  get_open_orders to_api_obj arg orders !! s = Some l <->
  s ∈ open_assets orders /\ l = open_orders_of to_api_obj orders s.
Proof.
  unfold get_open_orders. rewrite lookup_set_to_map.
  - split.
    + intros (y & Y & E). inversion E. subst. auto.
    + intros [Y E]. exists s. subst. auto.
  - intros y y' _ _ E. exact E.
Qed.

(** X15: [get_open_orders] groups the open orders of the book by asset:
    an asset is a key exactly when the book has an open order for it, the
    list under a key is never empty and holds exactly the open orders of that
    asset, and closed orders appear nowhere.  The [asset] argument makes no
    difference to the result. *)
Theorem open_orders_are_grouped_by_asset (arg : option PyObject)
    (orders : Book) (s : Z) :
  (forall l,
     get_open_orders to_api_obj arg orders !! s = Some l ->
     l <> [] /\
     forall x, In x l <->
       exists id o, In (id, o) orders /\ bo_open o = true /\
                    sid (bo_asset o) = s /\ to_api_obj o = x) /\
  (get_open_orders to_api_obj arg orders !! s = None <->
   forall id o, In (id, o) orders -> sid (bo_asset o) = s ->
                bo_open o = false) /\
  (forall id o, In (id, o) orders -> bo_open o = true ->
     sid (bo_asset o) = s ->
     exists l, get_open_orders to_api_obj arg orders !! s = Some l /\
               In (to_api_obj o) l) /\
  get_open_orders to_api_obj arg orders
  = get_open_orders to_api_obj None orders.
Proof.
  split; [|split; [|split; [|reflexivity]]].
  - intros l H. apply lookup_open_orders in H. destruct H as [Y E]. subst l.
    split.
    + apply elem_of_open_assets in Y. destruct Y as (id & o & H & O & S).
      assert (I : In (to_api_obj o) (open_orders_of to_api_obj orders s))
        by (apply in_open_orders_of; exists id, o; auto).
      intros N. rewrite N in I. exact I.
    + intros x. apply in_open_orders_of.
  - split.
    + intros N id o H S. destruct (bo_open o) eqn:O; [|reflexivity].
      assert (Y : s ∈ open_assets orders)
        by (apply elem_of_open_assets; exists id, o; auto).
      assert (L : get_open_orders to_api_obj arg orders !! s
                  = Some (open_orders_of to_api_obj orders s))
        by (apply lookup_open_orders; auto).
      congruence.
    + intros H.
      destruct (get_open_orders to_api_obj arg orders !! s) as [l |] eqn:L;
        [|reflexivity].
      apply lookup_open_orders in L. destruct L as [Y _].
      apply elem_of_open_assets in Y. destruct Y as (id & o & I & O & S).
      rewrite (H id o I S) in O. discriminate O.
  - intros id o H O S. eexists. split.
    + apply lookup_open_orders. split; [|reflexivity].
      apply elem_of_open_assets. exists id, o. auto.
    + apply in_open_orders_of. exists id, o. auto.
Qed.

(** X16: [get_order] answers [None] exactly for an id the book does not
    have; for an id of the book, ids being the keys of a dict and so
    distinct, it answers with that order, and if the order is open the answer
    is listed by [get_open_orders] under the order's asset. *)
Theorem get_order_agrees_with_the_book (arg : option PyObject)
    (orders : Book) (order_id : string) :
  (get_order to_api_obj order_id orders = None <->
   ~ In order_id (map fst orders)) /\
  (List.NoDup (map fst orders) ->
   forall o, In (order_id, o) orders ->
     get_order to_api_obj order_id orders = Some (to_api_obj o) /\
     (bo_open o = true ->
      exists l,
        get_open_orders to_api_obj arg orders !! sid (bo_asset o) = Some l /\
        In (to_api_obj o) l)).
Proof.
  unfold get_order. split.
  - split.
    + destruct (find _ orders) as [io |] eqn:F; [discriminate|].
      intros _ I. apply in_map_iff in I. destruct I as ([id o] & E & I).
      simpl in E. subst id.
      pose proof (find_none _ _ F _ I) as N. simpl in N.
      rewrite String.eqb_refl in N. discriminate N.
    + intros N. destruct (find _ orders) as [[id o] |] eqn:F; [|reflexivity].
      apply find_some in F. destruct F as [I E]. simpl in E.
      apply String.eqb_eq in E. subst id.
      destruct N. apply in_map_iff. exists (order_id, o). auto.
  - intros D o I. split.
    + induction orders as [| [id o'] rest IH]; [destruct I|].
      simpl in D. inversion D as [| ? ? Hn Hd]. subst.
      simpl. destruct (String.eqb id order_id) eqn:E.
      * apply String.eqb_eq in E. subst id.
        destruct I as [I | I]; [inversion I; reflexivity|].
        destruct Hn. apply in_map_iff. exists (order_id, o). auto.
      * destruct I as [I | I].
        -- inversion I. subst. rewrite String.eqb_refl in E. discriminate E.
        -- apply IH; assumption.
    + intros O. eexists. split.
      * apply lookup_open_orders. split; [|reflexivity].
        apply elem_of_open_assets. exists order_id, o. auto.
      * apply in_open_orders_of. exists order_id, o. auto.
Qed.

End OrderBookFacts.

Section OrderBookWitnesses.
Import Model OrderBook.
Local Open Scope string_scope.

(** X15 at the book of three orders: the open buy of [AAPL] is listed
    under [AAPL]. *)
Lemma open_orders_are_grouped_by_asset_witness :
  exists l,
    get_open_orders bo_amount None BookExamples.book !! 1 = Some l /\
    In 10 l.
Proof.
  exact (proj1 (proj2 (proj2
           (open_orders_are_grouped_by_asset bo_amount None
              BookExamples.book 1)))
           "o1" _ (or_introl eq_refl) eq_refl eq_refl).
Defined.

(** X16 at the book of three orders: [o3] is found, and listed under
    [STALE]. *)
Lemma get_order_agrees_with_the_book_witness :
  get_order bo_amount "o3" BookExamples.book = Some 7.
Proof.
  assert (D : List.NoDup (map fst BookExamples.book)).
  { repeat constructor; simpl; intuition discriminate. }
  exact (proj1 (proj2 (get_order_agrees_with_the_book bo_amount None
                         BookExamples.book "o3") D
                  {| bo_asset := Examples.STALE; bo_amount := 7;
                     bo_open := true |}
                  (or_intror (or_intror (or_introl eq_refl))))).
Defined.

End OrderBookWitnesses.

(** ** The docstring example of [round_order] *)

Section DocstringExample.
Import Num Model Py Algo Doubles.
Local Open Scope string_scope.

(** C2 at the amount Python reads [3.9999] as.  That amount and the
    tolerance are the binary64 numbers nearest to 3.9999 and to 0.0001 (each
    within half a unit in the last place); the difference [3.9999 - 4] of two
    floats that close is computed without rounding, and it exceeds the
    tolerance.  So the amount is not snapped to 4 as the docstring of
    [round_order] says, but truncated: [round_order] gives 3, with the exact
    tolerance as with the binary64 one, and [order] asks the backend for 3
    shares. *)
Theorem round_order_of_the_float_3_9999 :
  (Qabs (double_3_9999 - (39999 # 10000)) <= 1 # 4503599627370496)%Q /\
  (Qabs (double_0_0001 - (1 # 10000)) <= 1 # 147573952589676412928)%Q /\
  (double_0_0001 < Qabs (double_3_9999 - 4))%Q /\
  (default_epsilon < Qabs (double_3_9999 - 4))%Q /\
  py_round double_3_9999 = 4 /\
  py_int (round_if_near_integer double_3_9999 double_0_0001) = 3 /\
  round_order double_3_9999 = 3 /\
  orders_sent
    (world (snd (order module_globals Examples.broker
                   (AssetObj Examples.AAPL) double_3_9999 None None None
                   (Examples.running Examples.open_market))))
  = [(Examples.AAPL, 3, MarketOrder)].
Proof.
  split; [apply Qle_bool_iff; vm_compute; reflexivity|].
  split; [apply Qle_bool_iff; vm_compute; reflexivity|].
  split; [apply Qlt_alt; vm_compute; reflexivity|].
  split; [apply Qlt_alt; vm_compute; reflexivity|].
  repeat split; vm_compute; reflexivity.
Qed.

End DocstringExample.
